(** * The Home model of the Sugar shell: activity registry

    A shallow embedding of [shell/model/homemodel.py] (class [HomeModel])
    and the properties of its registry state machine.

    Python objects are identified by reference: the model keeps a heap of
    [HomeActivity] objects, and the registry, the active selector and the
    pending selector hold references into it.  Signals emitted by the model
    and the other observable effects (remote calls, log records) are
    collected, in order, in a trace. *)

From Stdlib Require Import ZArith Lia.
From stdpp Require Import base decidable option list strings.

Open Scope Z_scope.
Open Scope list_scope.

(** ** Results of fallible code *)

Inductive exn := ValueError | IndexError.

Inductive result (A : Type) :=
  | Return (a : A)
  | Raise (e : exn).
Arguments Return {A} a.
Arguments Raise {A} e.

Definition bind {A B} (c : result A) (k : A -> result B) : result B :=
  match c with
  | Return a => k a
  | Raise e => Raise e
  end.

Notation "'do' x <- c ; k" := (bind c (fun x => k))
  (at level 10, x name, c at level 100, k at level 200).

(** ** The window manager (wnck) as seen by the model *)

Inductive window_type :=
  | WINDOW_NORMAL | WINDOW_DESKTOP | WINDOW_DOCK | WINDOW_DIALOG
  | WINDOW_TOOLBAR | WINDOW_MENU | WINDOW_UTILITY | WINDOW_SPLASHSCREEN.

#[global] Instance window_type_eq_dec : EqDecision window_type.
Proof. solve_decision. Defined.

(** A window: its X identifier, its type, the activity id and bundle id
    properties read by [wm.get_activity_id] and [wm.get_bundle_id], and its
    transient parent. *)
#[warnings="-register-all"]
Inductive Window := mkWindow {
  get_xid : Z;
  get_window_type : window_type;
  wm_get_activity_id : option string;
  wm_get_bundle_id : option string;
  get_transient : option Window
}.

(** ** Bundle metadata and activity records *)

Record ActivityInfo := mkActivityInfo {
  info_service_name : string;
  info_name : string
}.

(** Modelled from the spec: the [HomeActivity] record type of
    [model/homeactivity.py] (section 3, ActivityRecord): activity id, bundle
    metadata, window handle, launching flag, and the optional remote control
    service of the design notes. *)
Record HomeActivity := mkHomeActivity {
  activity_info : option ActivityInfo;
  activity_id : option string;
  window : option Window;
  launching : bool;
  service : option string
}.

(** References to heap objects. *)
Abbreviation ref := nat (only parsing).

(** ** Observable effects *)

Inductive signal :=
  | activity_added | activity_started | activity_removed
  | active_activity_changed | pending_activity_changed.

#[global] Instance signal_eq_dec : EqDecision signal.
Proof. solve_decision. Defined.

Inductive log_record :=
  | error_no_activities_running
  | error_no_model_for_window (xid : Z)
  | error_no_model_for_activity (aid : option string)
  | debug_launch_failed (aid : option string).

(** [Emitted s arg members]: signal [s] was emitted with payload [arg]; the
    handlers run synchronously inside [emit], and [members] is the content
    of [_activities] they observe. *)
Inductive effect :=
  | Emitted (s : signal) (arg : option ref) (members : list ref)
  | SetActive (r : ref) (state : bool)
  | Logged (l : log_record).

(** ** The model *)

Record HomeModel := mkHomeModel {
  _activities : list ref;
  _active_activity : option ref;
  _pending_activity : option ref;
  heap : list HomeActivity;
  trace : list effect
}.

Definition HomeModel_init : HomeModel :=
  mkHomeModel [] None None [] [].

(** Outcome of a method that changes the model: it ends normally, or an
    exception propagates out of it; either way, with the model as the method
    left it. *)
Inductive outcome :=
  | Done (m : HomeModel)
  | Raised (e : exn) (m : HomeModel).

Definition with_activities (l : list ref) (m : HomeModel) : HomeModel :=
  mkHomeModel l (_active_activity m) (_pending_activity m) (heap m) (trace m).
Definition with_active (a : option ref) (m : HomeModel) : HomeModel :=
  mkHomeModel (_activities m) a (_pending_activity m) (heap m) (trace m).
Definition with_pending (p : option ref) (m : HomeModel) : HomeModel :=
  mkHomeModel (_activities m) (_active_activity m) p (heap m) (trace m).
Definition with_heap (h : list HomeActivity) (m : HomeModel) : HomeModel :=
  mkHomeModel (_activities m) (_active_activity m) (_pending_activity m) h (trace m).
Definition perform (e : effect) (m : HomeModel) : HomeModel :=
  mkHomeModel (_activities m) (_active_activity m) (_pending_activity m)
    (heap m) (trace m ++ [e]).

Definition emit (s : signal) (arg : option ref) (m : HomeModel) : HomeModel :=
  perform (Emitted s arg (_activities m)) m.

(** Python truth value of a string-or-None. *)
Definition truthy (s : option string) : bool :=
  match s with
  | Some EmptyString => false
  | Some _ => true
  | None => false
  end.

(** *** Accessors of [HomeActivity], through the heap *)

Definition get_window (m : HomeModel) (r : ref) : option Window :=
  match heap m !! r with Some o => window o | None => None end.

Definition activity_get_xid (m : HomeModel) (r : ref) : option Z :=
  match get_window m r with Some w => Some (get_xid w) | None => None end.

Definition get_activity_id (m : HomeModel) (r : ref) : option string :=
  match heap m !! r with Some o => activity_id o | None => None end.

Definition get_service (m : HomeModel) (r : ref) : option string :=
  match heap m !! r with Some o => service o | None => None end.

Definition get_launching (m : HomeModel) (r : ref) : bool :=
  match heap m !! r with Some o => launching o | None => false end.

Definition set_window (r : ref) (w : Window) (m : HomeModel) : HomeModel :=
  with_heap
    (alter (fun o => mkHomeActivity (activity_info o) (activity_id o) (Some w)
                       (launching o) (service o)) r (heap m)) m.

Definition set_launching (r : ref) (b : bool) (m : HomeModel) : HomeModel :=
  with_heap
    (alter (fun o => mkHomeActivity (activity_info o) (activity_id o) (window o)
                       b (service o)) r (heap m)) m.

(** *** Python list primitives *)

(** [l.index(x)]: position of the first element equal to [x]. *)
Fixpoint list_index (l : list ref) (x : option ref) : result Z :=
  match l with
  | [] => Raise ValueError
  | y :: l' =>
      if decide (Some y = x) then Return 0
      else do i <- list_index l' x; Return (i + 1)
  end.

(** [l[k]], negative [k] counting from the end. *)
Definition getitem (l : list ref) (k : Z) : result ref :=
  let k' := if decide (k < 0) then k + Z.of_nat (length l) else k in
  if decide (k' < 0) then Raise IndexError
  else match l !! Z.to_nat k' with
       | Some x => Return x
       | None => Raise IndexError
       end.

(** [l.remove(x)]: drops the first occurrence of [x]. *)
Fixpoint list_remove (x : ref) (l : list ref) : result (list ref) :=
  match l with
  | [] => Raise ValueError
  | y :: l' =>
      if decide (y = x) then Return l'
      else do l'' <- list_remove x l'; Return (y :: l'')
  end.

Section HomeModel.

(** The bundle registry ([activity.get_registry().get_activity]) and the
    lookup of an activity's remote service done when a record is built. *)
Variable registry_get_activity : string -> option ActivityInfo.
Variable retrieve_service : option string -> option string.

(** Modelled from the spec: the constructor [HomeActivity(activity_info,
    activity_id)] of [model/homeactivity.py]; the new object has no window and
    is not launching.  It returns the model with the object allocated and the
    reference to it. *)
Definition HomeActivity_new (info : option ActivityInfo) (aid : option string)
    (m : HomeModel) : HomeModel * ref :=
  (with_heap (heap m ++ [mkHomeActivity info aid None false (retrieve_service aid)]) m,
   length (heap m)).

Definition _get_activities_with_window (m : HomeModel) : list ref :=
  filter (fun i => is_Some (get_window m i)) (_activities m).

Definition get_previous_activity (m : HomeModel) : result (option ref) :=
  let activities := _get_activities_with_window m in
  do i <- list_index activities (_pending_activity m);
  if decide (length activities = 0%nat) then Return None
  else if decide (i - 1 >= 0) then
    do a <- getitem activities (i - 1); Return (Some a)
  else
    do a <- getitem activities (Z.of_nat (length activities) - 1); Return (Some a).

Definition get_next_activity (m : HomeModel) : result (option ref) :=
  let activities := _get_activities_with_window m in
  do i <- list_index activities (_pending_activity m);
  if decide (length activities = 0%nat) then Return None
  else if decide (i + 1 < Z.of_nat (length activities)) then
    do a <- getitem activities (i + 1); Return (Some a)
  else
    do a <- getitem activities 0; Return (Some a).

Definition get_pending_activity (m : HomeModel) : option ref :=
  _pending_activity m.

Definition _set_pending_activity (home_activity : option ref) (m : HomeModel)
    : HomeModel :=
  if decide (_pending_activity m = home_activity) then m
  else
    let m := with_pending home_activity m in
    emit pending_activity_changed (_pending_activity m) m.

Definition get_active_activity (m : HomeModel) : option ref :=
  _active_activity m.

(** [service.SetActive(b, ...)] on the service of [r], when it has one. *)
Definition call_SetActive (r : option ref) (b : bool) (m : HomeModel) : HomeModel :=
  match r with
  | Some a =>
      match get_service m a with
      | Some _ => perform (SetActive a b) m
      | None => m
      end
  | None => m
  end.

Definition _set_active_activity (home_activity : option ref) (m : HomeModel)
    : HomeModel :=
  if decide (_active_activity m = home_activity) then m
  else
    let m := call_SetActive (_active_activity m) false m in
    let m := call_SetActive home_activity true m in
    let m := with_active home_activity m in
    emit active_activity_changed (_active_activity m) m.

Definition _get_activity_by_xid (m : HomeModel) (xid : Z) : option ref :=
  List.find (fun home_activity =>
    bool_decide (activity_get_xid m home_activity = Some xid)) (_activities m).

Definition _get_activity_by_id (m : HomeModel) (aid : option string) : option ref :=
  List.find (fun home_activity =>
    bool_decide (get_activity_id m home_activity = aid)) (_activities m).

Definition _add_activity (home_activity : ref) (m : HomeModel) : HomeModel :=
  let m := with_activities (_activities m ++ [home_activity]) m in
  emit activity_added (Some home_activity) m.

Definition _window_opened_cb (w : Window) (m : HomeModel) : HomeModel :=
  if decide (get_window_type w = WINDOW_NORMAL) then
    let aid := wm_get_activity_id w in
    let service_name := wm_get_bundle_id w in
    let info :=
      match service_name with
      | Some s => if truthy service_name then registry_get_activity s else None
      | None => None
      end in
    let found := if truthy aid then _get_activity_by_id m aid else None in
    let '(m, home_activity) :=
      match found with
      | Some r => (m, r)
      | None =>
          let '(m, r) := HomeActivity_new info aid m in
          (_add_activity r m, r)
      end in
    let m := set_window home_activity w m in
    let m := set_launching home_activity false m in
    let m := emit activity_started (Some home_activity) m in
    match _pending_activity m with
    | None => _set_pending_activity (Some home_activity) m
    | Some _ => m
    end
  else m.

(** The [for ... else] scan of [_remove_activity] over the windows, most
    recently raised first. *)
Fixpoint pick_pending (windows : list Window) (m : HomeModel) : HomeModel :=
  match windows with
  | [] =>
      let m := perform (Logged error_no_activities_running) m in
      _set_pending_activity None m
  | w :: windows' =>
      match _get_activity_by_xid m (get_xid w) with
      | Some new_activity => _set_pending_activity (Some new_activity) m
      | None => pick_pending windows' m
      end
  end.

(** [windows_stacked] is what [screen.get_windows_stacked()] returns when the
    removal runs (bottom to top). *)
Definition _remove_activity (windows_stacked : list Window) (home_activity : ref)
    (m : HomeModel) : outcome :=
  let m :=
    if decide (Some home_activity = _active_activity m)
    then _set_active_activity None m else m in
  let m :=
    if decide (Some home_activity = _pending_activity m)
    then pick_pending (reverse windows_stacked) m else m in
  let m := emit activity_removed (Some home_activity) m in
  match list_remove home_activity (_activities m) with
  | Return l => Done (with_activities l m)
  | Raise e => Raised e m
  end.

Definition _remove_activity_by_xid (windows_stacked : list Window) (xid : Z)
    (m : HomeModel) : outcome :=
  match _get_activity_by_xid m xid with
  | Some home_activity => _remove_activity windows_stacked home_activity m
  | None => Done (perform (Logged (error_no_model_for_window xid)) m)
  end.

Definition _window_closed_cb (windows_stacked : list Window) (w : Window)
    (m : HomeModel) : outcome :=
  if decide (get_window_type w = WINDOW_NORMAL)
  then _remove_activity_by_xid windows_stacked (get_xid w) m
  else Done m.

(** The [while window.get_transient() is not None] loop. *)
Fixpoint topmost (w : Window) : Window :=
  match get_transient w with
  | Some parent => topmost parent
  | None => w
  end.

(** [active_window] is what [screen.get_active_window()] returns. *)
Definition _active_window_changed_cb (active_window : option Window)
    (m : HomeModel) : HomeModel :=
  match active_window with
  | None => m
  | Some w =>
      let w := if decide (get_window_type w <> WINDOW_DIALOG) then topmost w else w in
      match _get_activity_by_xid m (get_xid w) with
      | Some a => _set_active_activity (Some a) (_set_pending_activity (Some a) m)
      | None => m
      end
  end.

Definition notify_activity_launch (aid : option string) (service_name : string)
    (m : HomeModel) : outcome :=
  match registry_get_activity service_name with
  | None => Raised ValueError m
  | Some info =>
      let '(m, home_activity) := HomeActivity_new (Some info) aid m in
      let m := set_launching home_activity true m in
      Done (_add_activity home_activity m)
  end.

Definition notify_activity_launch_failed (windows_stacked : list Window)
    (aid : option string) (m : HomeModel) : outcome :=
  match _get_activity_by_id m aid with
  | Some home_activity =>
      let m := perform (Logged (debug_launch_failed aid)) m in
      _remove_activity windows_stacked home_activity m
  | None => Done (perform (Logged (error_no_model_for_activity aid)) m)
  end.

End HomeModel.

(** ** Events delivered to the model *)

Inductive event :=
  | WindowOpened (w : Window)
  | WindowClosed (windows_stacked : list Window) (w : Window)
  | ActiveWindowChanged (active_window : option Window)
  | ActivityLaunch (aid : option string) (service_name : string)
  | ActivityLaunchFailed (windows_stacked : list Window) (aid : option string).

Section Events.

Variable registry_get_activity : string -> option ActivityInfo.
Variable retrieve_service : option string -> option string.

Definition deliver (ev : event) (m : HomeModel) : outcome :=
  match ev with
  | WindowOpened w =>
      Done (_window_opened_cb registry_get_activity retrieve_service w m)
  | WindowClosed ws w => _window_closed_cb ws w m
  | ActiveWindowChanged aw => Done (_active_window_changed_cb aw m)
  | ActivityLaunch aid s =>
      notify_activity_launch registry_get_activity retrieve_service aid s m
  | ActivityLaunchFailed ws aid => notify_activity_launch_failed ws aid m
  end.

(** The model after the handler of [ev] has run, whether it ended normally
    or by an exception. *)
Definition step (ev : event) (m : HomeModel) : HomeModel :=
  match deliver ev m with
  | Done m' => m'
  | Raised _ m' => m'
  end.

Definition run (evs : list event) (m : HomeModel) : HomeModel :=
  fold_left (fun m ev => step ev m) evs m.

End Events.

(** ** A concrete environment, for examples *)

Definition web_info : ActivityInfo :=
  mkActivityInfo "org.laptop.WebActivity" "Web".

Definition demo_registry (s : string) : option ActivityInfo :=
  if String.eqb s "org.laptop.WebActivity" then Some web_info else None.

Definition demo_service (aid : option string) : option string := aid.

Definition W1 : Window := mkWindow 11 WINDOW_NORMAL (Some "a1"%string) None None.
Definition W2 : Window := mkWindow 12 WINDOW_NORMAL (Some "a2"%string) None None.
Definition W3 : Window := mkWindow 13 WINDOW_NORMAL (Some "a3"%string) None None.

(** A utility window and a dialog, both transient for [W1]. *)
Definition U1 : Window := mkWindow 21 WINDOW_UTILITY None None (Some W1).

Definition demo_run (evs : list event) : HomeModel :=
  run demo_registry demo_service evs HomeModel_init.

(** One activity with a window. *)
Definition one_window : HomeModel := demo_run [WindowOpened W1].

(** Two activities with windows; the first one is pending. *)
Definition two_windows : HomeModel := demo_run [WindowOpened W1; WindowOpened W2].

(** Three activities with windows; the first one is pending. *)
Definition three_windows : HomeModel :=
  demo_run [WindowOpened W1; WindowOpened W2; WindowOpened W3].

(** One launching activity, no window yet. *)
Definition launching_only : HomeModel :=
  demo_run [ActivityLaunch (Some "a1"%string) "org.laptop.WebActivity"].


(** Two activities with windows, then a launch failure reported for the
    first one while its window is still on top of the stack. *)
Definition failed_after_start : HomeModel :=
  demo_run [WindowOpened W1; WindowOpened W2;
            ActivityLaunchFailed [W2; W1] (Some "a1"%string)].

(** ** Specification vocabulary *)

(** Number of emissions of signal [s] in a trace. *)
Definition count_signal (s : signal) (t : list effect) : nat :=
  length (List.filter (fun e => match e with
                                | Emitted s' _ _ => bool_decide (s' = s)
                                | _ => false
                                end) t).

(** Number of remote [SetActive(b)] calls in a trace. *)
Definition count_SetActive (b : bool) (t : list effect) : nat :=
  length (List.filter (fun e => match e with
                                | SetActive _ b' => bool_decide (b' = b)
                                | _ => false
                                end) t).

(** The tracked records met when the window stack is scanned from the top
    (most recently raised) window down. *)
Definition tracked_top_down (m : HomeModel) (windows_stacked : list Window)
    : list ref :=
  omap (fun w => _get_activity_by_xid m (get_xid w)) (reverse windows_stacked).

(** Every reference held by the registry points into the heap, and no
    record is registered twice. *)
Definition well_formed (m : HomeModel) : Prop :=
  (forall r, r ∈ _activities m -> (r < length (heap m))%nat) /\
  NoDup (_activities m).

(** No two registered records share an activity id that Python treats as
    true (a non-empty string). *)
Definition unique_ids (m : HomeModel) : Prop :=
  forall r1 r2,
    r1 ∈ _activities m -> r2 ∈ _activities m -> r1 <> r2 ->
    truthy (get_activity_id m r1) = true ->
    get_activity_id m r1 <> get_activity_id m r2.


(** The window stack read while record [r] is removed: the window of [r] is
    not in it, and the window of every other registered record is. *)
Definition stack_consistent (m : HomeModel) (r : ref)
    (windows_stacked : list Window) : Prop :=
  (forall w, w ∈ windows_stacked -> activity_get_xid m r <> Some (get_xid w)) /\
  (forall r', r' ∈ _activities m -> r' <> r -> is_Some (get_window m r') ->
     exists w, w ∈ windows_stacked /\ activity_get_xid m r' = Some (get_xid w)).

(** An event during which the window manager reports a consistent stack
    whenever the pending activity is removed; any other event. *)
Definition wm_consistent (ev : event) (m : HomeModel) : Prop :=
  match ev with
  | WindowClosed ws w =>
      forall r, get_window_type w = WINDOW_NORMAL ->
        _get_activity_by_xid m (get_xid w) = Some r ->
        _pending_activity m = Some r -> stack_consistent m r ws
  | ActivityLaunchFailed ws aid =>
      forall r, _get_activity_by_id m aid = Some r ->
        _pending_activity m = Some r -> stack_consistent m r ws
  | _ => True
  end.

(** The pending selector references a registered record that has a window,
    and is none only when no registered record has one. *)
Definition pending_windowed (m : HomeModel) : Prop :=
  (forall p, _pending_activity m = Some p ->
     p ∈ _activities m /\ is_Some (get_window m p)) /\
  (_pending_activity m = None ->
     forall r, r ∈ _activities m -> get_window m r = None).

(** Bundle metadata looked up for a window, given the bundle registry. *)
Definition window_info (reg : string -> option ActivityInfo) (w : Window)
    : option ActivityInfo :=
  match wm_get_bundle_id w with
  | Some s => if truthy (wm_get_bundle_id w) then reg s else None
  | None => None
  end.

(** What [set_window] followed by [launching = False] does to an object. *)
Definition attach (w : Window) (o : HomeActivity) : HomeActivity :=
  mkHomeActivity (activity_info o) (activity_id o) (Some w) false (service o).

(** The record that event [ev] removes from [m], and the window stack read
    during the removal. *)
Definition removes (ev : event) (m : HomeModel) (windows_stacked : list Window)
    (r : ref) : Prop :=
  match ev with
  | WindowClosed ws w =>
      ws = windows_stacked /\ get_window_type w = WINDOW_NORMAL /\
      _get_activity_by_xid m (get_xid w) = Some r
  | ActivityLaunchFailed ws aid =>
      ws = windows_stacked /\ _get_activity_by_id m aid = Some r
  | _ => False
  end.

(** How an event changes the registry, the heap and the pending selector. *)
Inductive transition (ev : event) (m m' : HomeModel) : Prop :=
  | tr_keep :
      _activities m' = _activities m -> heap m' = heap m ->
      _pending_activity m' = _pending_activity m ->
      transition ev m m'
  | tr_focus a :
      a ∈ _activities m -> is_Some (get_window m a) ->
      _activities m' = _activities m -> heap m' = heap m ->
      _pending_activity m' = Some a ->
      transition ev m m'
  | tr_attach r w :
      r ∈ _activities m ->
      _activities m' = _activities m ->
      heap m' = alter (attach w) r (heap m) ->
      _pending_activity m' =
        match _pending_activity m with None => Some r | Some p => Some p end ->
      transition ev m m'
  | tr_open w o :
      ev = WindowOpened w ->
      activity_id o = wm_get_activity_id w -> window o = Some w ->
      (truthy (wm_get_activity_id w) = true ->
       forall r, r ∈ _activities m -> get_activity_id m r <> wm_get_activity_id w) ->
      _activities m' = _activities m ++ [length (heap m)] ->
      heap m' = heap m ++ [o] ->
      _pending_activity m' =
        match _pending_activity m with
        | None => Some (length (heap m))
        | Some p => Some p
        end ->
      transition ev m m'
  | tr_launch aid s o :
      ev = ActivityLaunch aid s ->
      activity_id o = aid -> window o = None ->
      _activities m' = _activities m ++ [length (heap m)] ->
      heap m' = heap m ++ [o] ->
      _pending_activity m' = _pending_activity m ->
      transition ev m m'
  | tr_remove ws r l1 l2 :
      removes ev m ws r ->
      _activities m = l1 ++ r :: l2 -> r ∉ l1 ->
      _activities m' = l1 ++ l2 -> heap m' = heap m ->
      _pending_activity m' =
        (if decide (Some r = _pending_activity m)
         then head (tracked_top_down m ws) else _pending_activity m) ->
      transition ev m m'.

(** States reached from the initial model by events that satisfy [G] when
    they are delivered. *)
Inductive reachable (reg : string -> option ActivityInfo)
    (srv : option string -> option string)
    (G : event -> HomeModel -> Prop) : HomeModel -> Prop :=
  | reachable_init : reachable reg srv G HomeModel_init
  | reachable_step m ev :
      reachable reg srv G m -> G ev m ->
      reachable reg srv G (step reg srv ev m).

(** ** Sequence-style access to the registry *)

Definition __iter__ (m : HomeModel) : list ref := _activities m.

Definition __len__ (m : HomeModel) : Z := Z.of_nat (length (_activities m)).

Definition __getitem__ (m : HomeModel) (i : Z) : result ref :=
  getitem (_activities m) i.

Definition index (m : HomeModel) (obj : option ref) : result Z :=
  list_index (_activities m) obj.

(** ** Vocabulary of the further properties *)

(** No condition on the events delivered. *)
Definition any_event : event -> HomeModel -> Prop := fun _ _ => True.

(** The window whose record [_active_window_changed_cb] looks up: the
    active window itself for a dialog, the end of its chain of transient
    parents otherwise. *)
Definition focus_window (w : Window) : Window :=
  if decide (get_window_type w <> WINDOW_DIALOG) then topmost w else w.

(** The remote call made on the service of record [r], if it has one. *)
Definition remote_call (m : HomeModel) (r : option ref) (b : bool) : list effect :=
  match r with
  | Some a =>
      match get_service m a with
      | Some _ => [SetActive a b]
      | None => []
      end
  | None => []
  end.

(** Effects of setting the active selector of [m] to [h]. *)
Definition active_effects (m : HomeModel) (h : option ref) : list effect :=
  if decide (_active_activity m = h) then []
  else remote_call m (_active_activity m) false ++ remote_call m h true
       ++ [Emitted active_activity_changed h (_activities m)].

(** Effects of setting the pending selector of [m] to [h]. *)
Definition pending_effects (m : HomeModel) (h : option ref) : list effect :=
  if decide (_pending_activity m = h) then []
  else [Emitted pending_activity_changed h (_activities m)].

(** The active selector, when set, references a registered record that has a
    window; the pending selector, when set, references a record that has a
    window. *)
Definition selectors_windowed (m : HomeModel) : Prop :=
  (forall a, _active_activity m = Some a ->
     a ∈ _activities m /\ is_Some (get_window m a)) /\
  (forall p, _pending_activity m = Some p -> is_Some (get_window m p)).

(** An object is launching exactly when it has no window. *)
Definition launching_consistent (m : HomeModel) : Prop :=
  forall r o, heap m !! r = Some o -> (launching o = true <-> window o = None).

(** By how much an event changes the length of the registry. *)
Definition growth (reg : string -> option ActivityInfo) (ev : event)
    (m : HomeModel) : Z :=
  match ev with
  | WindowOpened w =>
      if decide (get_window_type w = WINDOW_NORMAL) then
        if truthy (wm_get_activity_id w) then
          match _get_activity_by_id m (wm_get_activity_id w) with
          | Some _ => 0
          | None => 1
          end
        else 1
      else 0
  | WindowClosed _ w =>
      if decide (get_window_type w = WINDOW_NORMAL) then
        match _get_activity_by_xid m (get_xid w) with
        | Some _ => -1
        | None => 0
        end
      else 0
  | ActiveWindowChanged _ => 0
  | ActivityLaunch _ s =>
      match reg s with Some _ => 1 | None => 0 end
  | ActivityLaunchFailed _ aid =>
      match _get_activity_by_id m aid with Some _ => -1 | None => 0 end
  end.

(** What an event does to the model, field by field. *)
Inductive step_case (reg : string -> option ActivityInfo)
    (srv : option string -> option string)
    (ev : event) (m m' : HomeModel) : Prop :=
  | sc_keep t :
      _activities m' = _activities m ->
      _active_activity m' = _active_activity m ->
      _pending_activity m' = _pending_activity m ->
      heap m' = heap m ->
      trace m' = trace m ++ t ->
      (t = [] \/ exists l, t = [Logged l]) ->
      step_case reg srv ev m m'
  | sc_focus w a :
      ev = ActiveWindowChanged (Some w) ->
      _get_activity_by_xid m (get_xid (focus_window w)) = Some a ->
      _activities m' = _activities m ->
      _active_activity m' = Some a ->
      _pending_activity m' = Some a ->
      heap m' = heap m ->
      trace m' = trace m ++ pending_effects m (Some a) ++ active_effects m (Some a) ->
      step_case reg srv ev m m'
  | sc_attach w r :
      ev = WindowOpened w -> r ∈ _activities m ->
      _activities m' = _activities m ->
      _active_activity m' = _active_activity m ->
      _pending_activity m' =
        match _pending_activity m with None => Some r | Some p => Some p end ->
      heap m' = alter (attach w) r (heap m) ->
      trace m' =
        trace m ++ [Emitted activity_started (Some r) (_activities m)]
                ++ match _pending_activity m with
                   | None =>
                       [Emitted pending_activity_changed (Some r) (_activities m)]
                   | Some _ => []
                   end ->
      step_case reg srv ev m m'
  | sc_open w :
      ev = WindowOpened w ->
      let n := length (heap m) in
      _activities m' = _activities m ++ [n] ->
      _active_activity m' = _active_activity m ->
      _pending_activity m' =
        match _pending_activity m with None => Some n | Some p => Some p end ->
      heap m' = heap m ++ [mkHomeActivity (window_info reg w)
                             (wm_get_activity_id w) (Some w) false
                             (srv (wm_get_activity_id w))] ->
      trace m' =
        trace m ++ [Emitted activity_added (Some n) (_activities m ++ [n]);
                    Emitted activity_started (Some n) (_activities m ++ [n])]
                ++ match _pending_activity m with
                   | None =>
                       [Emitted pending_activity_changed (Some n)
                          (_activities m ++ [n])]
                   | Some _ => []
                   end ->
      step_case reg srv ev m m'
  | sc_launch aid s info :
      ev = ActivityLaunch aid s ->
      let n := length (heap m) in
      _activities m' = _activities m ++ [n] ->
      _active_activity m' = _active_activity m ->
      _pending_activity m' = _pending_activity m ->
      heap m' = heap m ++ [mkHomeActivity (Some info) aid None true (srv aid)] ->
      trace m' = trace m ++ [Emitted activity_added (Some n) (_activities m ++ [n])] ->
      step_case reg srv ev m m'
  | sc_remove ws r l1 l2 t :
      removes ev m ws r ->
      _activities m = l1 ++ r :: l2 -> r ∉ l1 ->
      _activities m' = l1 ++ l2 ->
      _active_activity m' =
        (if decide (Some r = _active_activity m) then None else _active_activity m) ->
      _pending_activity m' =
        (if decide (Some r = _pending_activity m)
         then head (tracked_top_down m ws) else _pending_activity m) ->
      heap m' = heap m ->
      trace m' = trace m ++ t ++ [Emitted activity_removed (Some r) (_activities m)] ->
      count_signal activity_added t = 0%nat ->
      count_signal activity_removed t = 0%nat ->
      step_case reg srv ev m m'.

(** ** Basic facts *)

Lemma count_signal_app s t1 t2 :
  count_signal s (t1 ++ t2) = (count_signal s t1 + count_signal s t2)%nat.
Proof. unfold count_signal. rewrite List.filter_app, length_app. reflexivity. Qed.

Lemma count_signal_cons s e t :
  count_signal s (e :: t) =
  ((match e with
    | Emitted s' _ _ => if bool_decide (s' = s) then 1 else 0
    | _ => 0
    end) + count_signal s t)%nat.
Proof.
  unfold count_signal. simpl. destruct e as [s' a l| |]; [|done..].
  by destruct (bool_decide (s' = s)).
Qed.

Lemma count_signal_nil s : count_signal s [] = 0%nat.
Proof. reflexivity. Qed.

(** Counts the emissions of a signal in a trace extended by known effects. *)
Ltac count_trace :=
  rewrite ?count_signal_app, ?count_signal_cons, ?count_signal_nil;
  repeat match goal with
         | |- context [bool_decide (?a = ?b)] =>
             let v := eval vm_compute in (bool_decide (a = b)) in
             change (bool_decide (a = b)) with v
         end;
  cbv iota; lia.

Lemma count_SetActive_app b t1 t2 :
  count_SetActive b (t1 ++ t2) = (count_SetActive b t1 + count_SetActive b t2)%nat.
Proof. unfold count_SetActive. rewrite List.filter_app, length_app. reflexivity. Qed.

Lemma find_none_iff {A} (f : A -> bool) (l : list A) :
  List.find f l = None <-> forall x, x ∈ l -> f x = false.
Proof.
  split.
  - intros H x Hx. apply list_elem_of_In in Hx. eapply List.find_none; eauto.
  - induction l as [|a l IH]; intros H; simpl; [reflexivity|].
    rewrite (H a) by (left). apply IH. intros x Hx. apply H. by right.
Qed.

Lemma find_some_elem {A} (f : A -> bool) (l : list A) x :
  List.find f l = Some x -> x ∈ l /\ f x = true.
Proof.
  intros H. apply List.find_some in H as [H1 H2].
  split; [by apply list_elem_of_In | done].
Qed.

Lemma call_SetActive_trace r b m :
  exists t, trace (call_SetActive r b m) = trace m ++ t /\
    count_signal active_activity_changed t = 0%nat /\
    (count_SetActive b t <= 1)%nat /\
    count_SetActive (negb b) t = 0%nat.
Proof.
  unfold call_SetActive. destruct r as [a|].
  - destruct (get_service m a).
    + exists [SetActive a b]. simpl. split; [done|].
      destruct b; cbv; repeat split; lia.
    + exists []. rewrite app_nil_r. cbv. repeat split; lia.
  - exists []. rewrite app_nil_r. cbv. repeat split; lia.
Qed.

Lemma call_SetActive_frame r b m :
  _activities (call_SetActive r b m) = _activities m /\
  _active_activity (call_SetActive r b m) = _active_activity m /\
  _pending_activity (call_SetActive r b m) = _pending_activity m /\
  heap (call_SetActive r b m) = heap m.
Proof.
  unfold call_SetActive. destruct r as [a|]; [destruct (get_service m a)|]; done.
Qed.

Lemma _set_active_activity_frame h m :
  _activities (_set_active_activity h m) = _activities m /\
  _pending_activity (_set_active_activity h m) = _pending_activity m /\
  heap (_set_active_activity h m) = heap m /\
  _active_activity (_set_active_activity h m) = h.
Proof.
  unfold _set_active_activity. case_decide as E; [done|]. simpl.
  destruct (call_SetActive_frame h true
              (call_SetActive (_active_activity m) false m)) as (A1 & _ & P1 & H1).
  destruct (call_SetActive_frame (_active_activity m) false m) as (A2 & _ & P2 & H2).
  rewrite A1, P1, H1, A2, P2, H2. done.
Qed.

Lemma _set_pending_activity_frame h m :
  _activities (_set_pending_activity h m) = _activities m /\
  _active_activity (_set_pending_activity h m) = _active_activity m /\
  heap (_set_pending_activity h m) = heap m /\
  _pending_activity (_set_pending_activity h m) = h.
Proof. unfold _set_pending_activity. case_decide as E; done. Qed.

(** ** The setters *)

(** C7. The active and pending setters do nothing when the new value is the
    reference already held: the model, and so its trace, is unchanged, and
    calling a setter twice with the same value equals calling it once.  When
    the value differs from the current one (as references, whatever the
    records hold), two calls in a row emit the change signal exactly once and
    issue at most one remote SetActive(true) call. *)
Theorem setters_idempotent (m : HomeModel) (h : option ref) :
  (_active_activity m = h -> _set_active_activity h m = m) /\
  (_pending_activity m = h -> _set_pending_activity h m = m) /\
  _set_active_activity h (_set_active_activity h m) = _set_active_activity h m /\
  _set_pending_activity h (_set_pending_activity h m) = _set_pending_activity h m /\
  (_active_activity m <> h ->
     count_signal active_activity_changed
       (trace (_set_active_activity h (_set_active_activity h m)))
     = S (count_signal active_activity_changed (trace m)) /\
     (count_SetActive true
        (trace (_set_active_activity h (_set_active_activity h m)))
      <= S (count_SetActive true (trace m)))%nat) /\
  (_pending_activity m <> h ->
     count_signal pending_activity_changed
       (trace (_set_pending_activity h (_set_pending_activity h m)))
     = S (count_signal pending_activity_changed (trace m))).
Proof.
  assert (Ha : forall m', _active_activity m' = h -> _set_active_activity h m' = m').
  { intros m' E. unfold _set_active_activity. by rewrite decide_True. }
  assert (Hp : forall m', _pending_activity m' = h -> _set_pending_activity h m' = m').
  { intros m' E. unfold _set_pending_activity. by rewrite decide_True. }
  assert (Ha2 : _set_active_activity h (_set_active_activity h m)
                = _set_active_activity h m).
  { apply Ha. apply _set_active_activity_frame. }
  assert (Hp2 : _set_pending_activity h (_set_pending_activity h m)
                = _set_pending_activity h m).
  { apply Hp. apply _set_pending_activity_frame. }
  split; [apply Ha|]. split; [apply Hp|]. split; [exact Ha2|]. split; [exact Hp2|].
  split.
  - intros Hne. rewrite Ha2. unfold _set_active_activity.
    rewrite decide_False by done. simpl.
    destruct (call_SetActive_trace (_active_activity m) false m)
      as (t1 & E1 & C1 & _ & T1).
    destruct (call_SetActive_trace h true
                (call_SetActive (_active_activity m) false m))
      as (t2 & E2 & C2 & B2 & _).
    rewrite E2, E1. simpl in T1.
    rewrite !count_signal_app, !count_SetActive_app, C1, C2, T1.
    unfold count_signal at 2, count_SetActive at 3. simpl. lia.
  - intros Hne. rewrite Hp2. unfold _set_pending_activity.
    rewrite decide_False by done. simpl.
    rewrite count_signal_app. unfold count_signal at 2. simpl. lia.
Qed.

Lemma setters_idempotent_witness :
  _active_activity one_window <> Some 0%nat /\
  count_signal active_activity_changed
    (trace (_set_active_activity (Some 0%nat)
              (_set_active_activity (Some 0%nat) one_window))) = 1%nat.
Proof.
  assert (Hne : _active_activity one_window <> Some 0%nat)
    by (vm_compute; discriminate).
  split; [exact Hne|].
  destruct (setters_idempotent one_window (Some 0%nat)) as (_ & _ & _ & _ & H & _).
  destruct (H Hne) as [Hc _]. exact Hc.
Defined.

Section Operations.

Variable reg : string -> option ActivityInfo.
Variable srv : option string -> option string.

(** ** Launch notifications *)

Lemma notify_activity_launch_eq aid service_name info m :
  reg service_name = Some info ->
  notify_activity_launch reg srv aid service_name m =
  Done (mkHomeModel (_activities m ++ [length (heap m)])
          (_active_activity m) (_pending_activity m)
          (heap m ++ [mkHomeActivity (Some info) aid None true (srv aid)])
          (trace m ++ [Emitted activity_added (Some (length (heap m)))
                         (_activities m ++ [length (heap m)])])).
Proof.
  intros H. unfold notify_activity_launch. rewrite H.
  unfold HomeActivity_new, set_launching, _add_activity, emit, perform,
    with_activities, with_heap. cbn [_activities _active_activity
    _pending_activity heap trace].
  rewrite alter_app_r_alt by lia. rewrite Nat.sub_diag. reflexivity.
Qed.

(** C6. When the bundle registry does not know the service name,
    [notify_activity_launch] raises [ValueError] and the model is left exactly
    as it was: no record added, nothing emitted. *)
Theorem notify_activity_launch_unknown_service
    (aid : option string) (service_name : string) (m : HomeModel) :
  reg service_name = None ->
  notify_activity_launch reg srv aid service_name m = Raised ValueError m /\
  step reg srv (ActivityLaunch aid service_name) m = m.
Proof.
  intros H. unfold step, deliver, notify_activity_launch.
  rewrite H. done.
Qed.

(** C10. A successful [notify_activity_launch] allocates one record (launching,
    without window), appends it at the end of the registry and emits
    [activity-added] for it, and nothing else: the selectors and every object
    already on the heap are unchanged, and the trace grows by this single
    emission. *)
Theorem notify_activity_launch_frame
    (aid : option string) (service_name : string) (info : ActivityInfo)
    (m : HomeModel) :
  reg service_name = Some info ->
  exists m',
    notify_activity_launch reg srv aid service_name m = Done m' /\
    let r := length (heap m) in
    _activities m' = _activities m ++ [r] /\
    heap m' !! r = Some (mkHomeActivity (Some info) aid None true
                           (srv aid)) /\
    get_launching m' r = true /\
    length (heap m') = S (length (heap m)) /\
    (forall r' o, heap m !! r' = Some o -> heap m' !! r' = Some o) /\
    _active_activity m' = _active_activity m /\
    _pending_activity m' = _pending_activity m /\
    trace m' = trace m ++ [Emitted activity_added (Some r) (_activities m ++ [r])] /\
    count_signal pending_activity_changed (trace m')
      = count_signal pending_activity_changed (trace m) /\
    count_signal active_activity_changed (trace m')
      = count_signal active_activity_changed (trace m).
Proof.
  intros H. rewrite (notify_activity_launch_eq _ _ _ _ H).
  eexists. split; [reflexivity|].
  cbn [_activities _active_activity _pending_activity heap trace].
  assert (Hr : (heap m ++ [mkHomeActivity (Some info) aid None true (srv aid)])
                 !! length (heap m)
               = Some (mkHomeActivity (Some info) aid None true (srv aid))).
  { rewrite lookup_app_r by lia. by rewrite Nat.sub_diag. }
  unfold get_launching. cbv zeta.
  cbn [_activities _active_activity _pending_activity heap trace].
  split; [done|]. split; [exact Hr|]. split; [by rewrite Hr|].
  split; [rewrite length_app; simpl; lia|].
  split; [intros r' o Ho; by apply lookup_app_l_Some|].
  split; [done|]. split; [done|]. split; [done|].
  split; count_trace.
Qed.

(** ** Events that match no record *)

(** C9. Closing a normal window whose identifier is not that of any
    registered record, and a launch failure for an activity id that no
    registered record carries, end normally and only log an error: the
    registry, both selectors and the heap are unchanged. *)
Theorem unknown_removals_absorbed
    (windows_stacked : list Window) (w : Window) (aid : option string)
    (m : HomeModel) :
  (get_window_type w = WINDOW_NORMAL ->
   (forall r, r ∈ _activities m -> activity_get_xid m r <> Some (get_xid w)) ->
   exists m',
     _window_closed_cb windows_stacked w m = Done m' /\
     _activities m' = _activities m /\
     _active_activity m' = _active_activity m /\
     _pending_activity m' = _pending_activity m /\
     heap m' = heap m /\
     trace m' = trace m ++ [Logged (error_no_model_for_window (get_xid w))]) /\
  ((forall r, r ∈ _activities m -> get_activity_id m r <> aid) ->
   exists m',
     notify_activity_launch_failed windows_stacked aid m = Done m' /\
     _activities m' = _activities m /\
     _active_activity m' = _active_activity m /\
     _pending_activity m' = _pending_activity m /\
     heap m' = heap m /\
     trace m' = trace m ++ [Logged (error_no_model_for_activity aid)]).
Proof.
  split.
  - intros Ht Hno. unfold _window_closed_cb, _remove_activity_by_xid.
    rewrite decide_True by done.
    assert (E : _get_activity_by_xid m (get_xid w) = None).
    { apply find_none_iff. intros r Hr. apply bool_decide_eq_false. by apply Hno. }
    rewrite E. eexists. split; [reflexivity|]. done.
  - intros Hno. unfold notify_activity_launch_failed.
    assert (E : _get_activity_by_id m aid = None).
    { apply find_none_iff. intros r Hr. apply bool_decide_eq_false. by apply Hno. }
    rewrite E. eexists. split; [reflexivity|]. done.
Qed.

End Operations.

(** ** Removal *)

Lemma list_remove_elem (x : ref) (l : list ref) :
  x ∈ l ->
  exists l1 l2, l = l1 ++ x :: l2 /\ (x ∉ l1) /\ list_remove x l = Return (l1 ++ l2).
Proof.
  induction l as [|y l IH]; intros Hx; [by apply elem_of_nil in Hx|].
  simpl. case_decide as E.
  - subst y. exists [], l. split; [done|]. split; [apply not_elem_of_nil | done].
  - apply elem_of_cons in Hx as [->|Hx]; [done|].
    destruct (IH Hx) as (l1 & l2 & -> & Hn & ->).
    exists (y :: l1), l2. split; [done|]. split; [|done].
    intros [?|?]%elem_of_cons; [subst; done | done].
Qed.

Lemma list_remove_not_elem (x : ref) (l : list ref) :
  x ∉ l -> list_remove x l = Raise ValueError.
Proof.
  induction l as [|y l IH]; intros Hx; [done|].
  simpl. apply not_elem_of_cons in Hx as [Hne Hx].
  rewrite decide_False by done. by rewrite IH.
Qed.

Lemma _get_activity_by_xid_ext m1 m2 xid :
  _activities m1 = _activities m2 -> heap m1 = heap m2 ->
  _get_activity_by_xid m1 xid = _get_activity_by_xid m2 xid.
Proof.
  intros Ha Hh. unfold _get_activity_by_xid, activity_get_xid, get_window.
  by rewrite Ha, Hh.
Qed.

Lemma tracked_top_down_ext m1 m2 ws :
  _activities m1 = _activities m2 -> heap m1 = heap m2 ->
  tracked_top_down m1 ws = tracked_top_down m2 ws.
Proof.
  intros Ha Hh. unfold tracked_top_down.
  induction (reverse ws) as [|w l IH]; [done|].
  cbn [omap list_omap]. rewrite (_get_activity_by_xid_ext m1 m2 _ Ha Hh).
  by rewrite IH.
Qed.

(** The scan loop sets pending to the first tracked record met, or logs an
    error and sets it to none. *)
Lemma pick_pending_eq ws m :
  pick_pending ws m =
  match head (omap (fun w => _get_activity_by_xid m (get_xid w)) ws) with
  | Some n => _set_pending_activity (Some n) m
  | None => _set_pending_activity None
              (perform (Logged error_no_activities_running) m)
  end.
Proof.
  induction ws as [|w ws IH]; simpl; [done|].
  destruct (_get_activity_by_xid m (get_xid w)); simpl; [done|apply IH].
Qed.

Lemma pick_pending_reverse ws m :
  pick_pending (reverse ws) m =
  match head (tracked_top_down m ws) with
  | Some n => _set_pending_activity (Some n) m
  | None => _set_pending_activity None
              (perform (Logged error_no_activities_running) m)
  end.
Proof. apply pick_pending_eq. Qed.

Lemma pick_pending_frame ws m :
  _activities (pick_pending ws m) = _activities m /\
  _active_activity (pick_pending ws m) = _active_activity m /\
  heap (pick_pending ws m) = heap m /\
  _pending_activity (pick_pending ws m)
  = head (omap (fun w => _get_activity_by_xid m (get_xid w)) ws).
Proof.
  rewrite pick_pending_eq.
  destruct (head _) as [n|].
  - apply _set_pending_activity_frame.
  - destruct (_set_pending_activity_frame None
                (perform (Logged error_no_activities_running) m))
      as (A & B & C & D).
    rewrite A, B, C, D. done.
Qed.

(** Effects of clearing the active selector when it holds [r]. *)
Lemma _set_active_activity_None_trace r m :
  _active_activity m = Some r ->
  trace (_set_active_activity None m) =
  trace m ++ (match get_service m r with Some _ => [SetActive r false] | None => [] end)
          ++ [Emitted active_activity_changed None (_activities m)].
Proof.
  intros E. unfold _set_active_activity. rewrite E. rewrite decide_False by done.
  unfold call_SetActive at 1. cbn [call_SetActive].
  unfold emit, with_active, perform. cbn [trace _activities].
  destruct (get_service m r); cbn [trace _activities]; by rewrite <- ?app_assoc.
Qed.

Lemma _set_pending_activity_trace h m :
  trace (_set_pending_activity h m) =
  trace m ++ (if decide (_pending_activity m = h) then []
              else [Emitted pending_activity_changed h (_activities m)]).
Proof.
  unfold _set_pending_activity. case_decide; [by rewrite app_nil_r | done].
Qed.

(** Outcome and effects of a removal. *)
Lemma _remove_activity_spec
    (windows_stacked : list Window) (r : ref) (m : HomeModel) :
  r ∈ _activities m ->
  exists m' l1 l2,
    _remove_activity windows_stacked r m = Done m' /\
    let active_part :=
      if decide (Some r = _active_activity m)
      then match get_service m r with Some _ => [SetActive r false] | None => [] end
           ++ [Emitted active_activity_changed None (_activities m)]
      else [] in
    let pending_part :=
      if decide (Some r = _pending_activity m)
      then match head (tracked_top_down m windows_stacked) with
           | Some n =>
               if decide (n = r) then []
               else [Emitted pending_activity_changed (Some n) (_activities m)]
           | None =>
               [Logged error_no_activities_running;
                Emitted pending_activity_changed None (_activities m)]
           end
      else [] in
    trace m' =
      trace m ++ active_part ++ pending_part
              ++ [Emitted activity_removed (Some r) (_activities m)] /\
    r ∈ _activities m /\
    _activities m = l1 ++ r :: l2 /\ (r ∉ l1) /\
    _activities m' = l1 ++ l2 /\
    (Some r = _active_activity m -> _active_activity m' = None) /\
    (Some r <> _active_activity m -> _active_activity m' = _active_activity m) /\
    heap m' = heap m /\
    _pending_activity m' =
      (if decide (Some r = _pending_activity m)
       then head (tracked_top_down m windows_stacked)
       else _pending_activity m).
Proof.
  intros Hr.
  destruct (list_remove_elem r (_activities m) Hr) as (l1 & l2 & Hl & Hn & Hrem).
  unfold _remove_activity. cbv zeta.
  set (m1 := if decide (Some r = _active_activity m)
             then _set_active_activity None m else m).
  assert (F1 : _activities m1 = _activities m /\
               _pending_activity m1 = _pending_activity m /\ heap m1 = heap m).
  { subst m1. case_decide; [|done].
    destruct (_set_active_activity_frame None m) as (?&?&?&?). done. }
  destruct F1 as (A1 & P1 & H1).
  set (m2 := if decide (Some r = _pending_activity m1)
             then pick_pending (reverse windows_stacked) m1 else m1).
  assert (F2 : _activities m2 = _activities m1 /\
               _active_activity m2 = _active_activity m1 /\ heap m2 = heap m1).
  { subst m2. case_decide; [|done].
    destruct (pick_pending_frame (reverse windows_stacked) m1) as (?&?&?&?). done. }
  destruct F2 as (A2 & Ac2 & H2).
  eexists _, l1, l2. split.
  { unfold emit, perform. cbn [_activities]. rewrite A2, A1, Hrem. reflexivity. }
  cbn [trace _activities _active_activity heap with_activities].
  split; [|split; [done|split; [done|split; [done|split; [done|]]]]].
  - assert (T1 : trace m1 = trace m ++
      (if decide (Some r = _active_activity m)
       then match get_service m r with Some _ => [SetActive r false] | None => [] end
            ++ [Emitted active_activity_changed None (_activities m)]
       else [])).
    { subst m1.
      destruct (decide (Some r = _active_activity m)) as [E|E];
        [|by rewrite app_nil_r].
      by apply _set_active_activity_None_trace. }
    assert (T2 : trace m2 = trace m1 ++
      (if decide (Some r = _pending_activity m)
       then match head (tracked_top_down m windows_stacked) with
            | Some n =>
                if decide (n = r) then []
                else [Emitted pending_activity_changed (Some n) (_activities m)]
            | None =>
                [Logged error_no_activities_running;
                 Emitted pending_activity_changed None (_activities m)]
            end
       else [])).
    { subst m2. rewrite P1.
      destruct (decide (Some r = _pending_activity m)) as [E|E];
        [|by rewrite app_nil_r].
      rewrite pick_pending_reverse.
      rewrite (tracked_top_down_ext m1 m windows_stacked A1 H1).
      destruct (head (tracked_top_down m windows_stacked)) as [n|].
      - rewrite _set_pending_activity_trace, P1, A1.
        destruct (decide (n = r)) as [->|Hne].
        + by rewrite decide_True.
        + rewrite decide_False; [done|]. rewrite <- E. congruence.
      - rewrite _set_pending_activity_trace. cbn [perform _pending_activity
          _activities trace]. rewrite P1, A1, <- E.
        rewrite decide_False by done. by rewrite <- app_assoc. }
    rewrite T2, T1. by rewrite <- !app_assoc.
  - split.
    + intros E. rewrite Ac2. subst m1. rewrite decide_True by done.
      apply _set_active_activity_frame.
    + split; [intros E; rewrite Ac2; subst m1; by rewrite decide_False|].
      split; [by rewrite H2, H1|].
      subst m2. rewrite P1.
      destruct (decide (Some r = _pending_activity m)) as [E|E]; [|done].
      destruct (pick_pending_frame (reverse windows_stacked) m1) as (_&_&_&Hp).
      rewrite Hp.
      change (head (tracked_top_down m1 windows_stacked)
              = head (tracked_top_down m windows_stacked)).
      by rewrite (tracked_top_down_ext m1 m _ A1 H1).
Qed.


(** ** Neighbours of the pending activity *)

Lemma list_index_first (l : list ref) (p : ref) (i : nat) :
  l !! i = Some p ->
  (forall j, (j < i)%nat -> l !! j <> Some p) ->
  list_index l (Some p) = Return (Z.of_nat i).
Proof.
  revert i. induction l as [|y l IH]; intros i Hi Hfirst; [done|].
  simpl. destruct i as [|i].
  - simpl in Hi. rewrite decide_True by done. done.
  - rewrite decide_False.
    + rewrite (IH i); [simpl; f_equal; lia | done |].
      intros j Hj. apply (Hfirst (S j)). lia.
    + intros E. apply (Hfirst 0%nat); [lia|]. simpl. congruence.
Qed.

Lemma list_index_absent (l : list ref) (x : option ref) :
  (forall r, r ∈ l -> Some r <> x) -> list_index l x = Raise ValueError.
Proof.
  induction l as [|y l IH]; intros H; [done|].
  simpl. rewrite decide_False by (apply H; left).
  rewrite IH; [done|]. intros r Hr. apply H. by right.
Qed.

Lemma getitem_lookup (l : list ref) (k : nat) (x : ref) :
  l !! k = Some x -> getitem l (Z.of_nat k) = Return x.
Proof.
  intros H. unfold getitem. cbv zeta.
  destruct (decide (Z.of_nat k < 0)) as [Hk|Hk]; [lia|].
  destruct (decide (Z.of_nat k < 0)) as [Hk'|Hk']; [lia|].
  by rewrite Nat2Z.id, H.
Qed.

(** C3, as the code has it.  When the pending activity is in the windowed
    subsequence, [get_next_activity] and [get_previous_activity] return its
    cyclic successor and predecessor there (its first position counts).  When
    the windowed subsequence is not empty and the pending selector is not one
    of its elements, both raise [ValueError]. *)
Theorem neighbours_cyclic (m : HomeModel) :
  let l := _get_activities_with_window m in
  let n := length l in
  (forall p i,
     _pending_activity m = Some p ->
     l !! i = Some p ->
     (forall j, (j < i)%nat -> l !! j <> Some p) ->
     is_Some (l !! ((i + 1) mod n)%nat) /\
     get_next_activity m = Return (l !! ((i + 1) mod n)%nat) /\
     is_Some (l !! ((i + n - 1) mod n)%nat) /\
     get_previous_activity m = Return (l !! ((i + n - 1) mod n)%nat)) /\
  (l <> [] ->
   (forall r, r ∈ l -> Some r <> _pending_activity m) ->
   get_next_activity m = Raise ValueError /\
   get_previous_activity m = Raise ValueError).
Proof.
  intros l n. split.
  - intros p i Hp Hi Hfirst.
    assert (Hlt : (i < n)%nat) by (by apply lookup_lt_Some in Hi).
    assert (Hidx : list_index l (Some p) = Return (Z.of_nat i))
      by (by apply list_index_first).
    assert (Hnext : exists a, l !! ((i + 1) mod n)%nat = Some a).
    { apply lookup_lt_is_Some. apply Nat.mod_upper_bound. lia. }
    assert (Hprev : exists a, l !! ((i + n - 1) mod n)%nat = Some a).
    { apply lookup_lt_is_Some. apply Nat.mod_upper_bound. lia. }
    destruct Hnext as [a Ha]. destruct Hprev as [b Hb].
    split; [by exists a|]. split; [|split; [by exists b|]].
    + unfold get_next_activity. fold l. rewrite Hp, Hidx. simpl.
      fold n. rewrite decide_False by lia. rewrite Ha.
      destruct (decide (Z.of_nat i + 1 < Z.of_nat n)) as [Hc|Hc].
      * rewrite Nat.mod_small in Ha by lia.
        replace (Z.of_nat i + 1) with (Z.of_nat (i + 1)) by lia.
        by rewrite (getitem_lookup _ _ _ Ha).
      * replace (i + 1)%nat with n in Ha by lia.
        rewrite Nat.Div0.mod_same in Ha.
        change 0 with (Z.of_nat 0).
        by rewrite (getitem_lookup l 0 a Ha).
    + unfold get_previous_activity. fold l. rewrite Hp, Hidx. simpl.
      fold n. rewrite decide_False by lia. rewrite Hb.
      destruct (decide (Z.of_nat i - 1 >= 0)) as [Hc|Hc].
      * replace (i + n - 1)%nat with ((i - 1) + 1 * n)%nat in Hb by lia.
        rewrite Nat.Div0.mod_add, Nat.mod_small in Hb by lia.
        replace (Z.of_nat i - 1) with (Z.of_nat (i - 1)) by lia.
        by rewrite (getitem_lookup _ _ _ Hb).
      * replace (i + n - 1)%nat with (n - 1)%nat in Hb by lia.
        rewrite Nat.mod_small in Hb by lia.
        replace (Z.of_nat n - 1) with (Z.of_nat (n - 1)) by lia.
        by rewrite (getitem_lookup _ _ _ Hb).
  - intros Hne Habs.
    unfold get_next_activity, get_previous_activity. fold l.
    by rewrite (list_index_absent l _ Habs).
Qed.

(** ** Window opening *)

Lemma set_launching_set_window r w m :
  set_launching r false (set_window r w m)
  = with_heap (alter (attach w) r (heap m)) m.
Proof.
  unfold set_launching, set_window, with_heap.
  cbn [_activities _active_activity _pending_activity heap trace].
  by rewrite list_alter_alter_eq.
Qed.

Section WindowOpened.

Variable reg : string -> option ActivityInfo.
Variable srv : option string -> option string.

Lemma _window_opened_cb_reuse w m r :
  get_window_type w = WINDOW_NORMAL ->
  truthy (wm_get_activity_id w) = true ->
  _get_activity_by_id m (wm_get_activity_id w) = Some r ->
  _window_opened_cb reg srv w m =
  let m1 := mkHomeModel (_activities m) (_active_activity m) (_pending_activity m)
              (alter (attach w) r (heap m))
              (trace m ++ [Emitted activity_started (Some r) (_activities m)]) in
  match _pending_activity m with
  | None => _set_pending_activity (Some r) m1
  | Some _ => m1
  end.
Proof.
  intros Ht Hid Hf. unfold _window_opened_cb.
  rewrite decide_True by done. cbv zeta. rewrite Hid, Hf.
  rewrite set_launching_set_window. reflexivity.
Qed.

Lemma _window_opened_cb_new w m :
  get_window_type w = WINDOW_NORMAL ->
  (truthy (wm_get_activity_id w) = false \/
   _get_activity_by_id m (wm_get_activity_id w) = None) ->
  _window_opened_cb reg srv w m =
  let r := length (heap m) in
  let m1 := mkHomeModel (_activities m ++ [r]) (_active_activity m)
              (_pending_activity m)
              (heap m ++ [mkHomeActivity (window_info reg w) (wm_get_activity_id w)
                            (Some w) false (srv (wm_get_activity_id w))])
              (trace m ++ [Emitted activity_added (Some r) (_activities m ++ [r]);
                           Emitted activity_started (Some r) (_activities m ++ [r])]) in
  match _pending_activity m with
  | None => _set_pending_activity (Some r) m1
  | Some _ => m1
  end.
Proof.
  intros Ht Hnew. unfold _window_opened_cb.
  rewrite decide_True by done. cbv zeta.
  assert (E : (if truthy (wm_get_activity_id w)
               then _get_activity_by_id m (wm_get_activity_id w) else None) = None).
  { destruct Hnew as [-> | ->]; [done | by destruct (truthy _)]. }
  rewrite E. unfold HomeActivity_new.
  rewrite set_launching_set_window.
  unfold _add_activity, emit, perform, with_activities, with_heap.
  cbn [_activities _active_activity _pending_activity heap trace].
  rewrite alter_app_r_alt by lia. rewrite Nat.sub_diag.
  cbn [alter list_alter attach activity_info activity_id service].
  rewrite <- app_assoc. reflexivity.
Qed.

Lemma _window_opened_cb_other w m :
  get_window_type w <> WINDOW_NORMAL -> _window_opened_cb reg srv w m = m.
Proof. intros Ht. unfold _window_opened_cb. by rewrite decide_False. Qed.

End WindowOpened.

Section Reuse.

Variable reg : string -> option ActivityInfo.
Variable srv : option string -> option string.

Lemma _get_activity_by_id_Some m aid r :
  _get_activity_by_id m aid = Some r ->
  r ∈ _activities m /\ get_activity_id m r = aid.
Proof.
  intros H. apply find_some_elem in H as [H1 H2].
  split; [done|]. by apply bool_decide_eq_true in H2.
Qed.

Lemma _get_activity_by_id_found m aid r :
  r ∈ _activities m -> get_activity_id m r = aid ->
  exists r0, _get_activity_by_id m aid = Some r0.
Proof.
  intros Hr Hid. destruct (_get_activity_by_id m aid) as [r0|] eqn:E; [by exists r0|].
  apply find_none_iff with (x := r) in E; [|done].
  apply bool_decide_eq_false in E. done.
Qed.

Lemma truthy_is_Some s : truthy s = true -> is_Some s.
Proof. destruct s; [by eexists | done]. Qed.

(** C5. A normal window is opened whose activity id is resolved (a non-empty
    string, which is what the handler's truth test on [activity_id] accepts)
    and is the id of a registered record [r].  Then the handler reuses a registered
    record [r0] with that id (the first one; [r] itself when ids are unique):
    the registry is unchanged, [activity-added] is not emitted,
    [activity-started] is emitted for [r0], the window is attached to [r0]
    and its launching flag is cleared; no other object changes. *)
Theorem _window_opened_cb_reuses_record (w : Window) (m : HomeModel) (r : ref) :
  get_window_type w = WINDOW_NORMAL ->
  truthy (wm_get_activity_id w) = true ->
  r ∈ _activities m ->
  get_activity_id m r = wm_get_activity_id w ->
  exists r0,
    let m' := _window_opened_cb reg srv w m in
    r0 ∈ _activities m /\
    get_activity_id m r0 = wm_get_activity_id w /\
    (unique_ids m -> r0 = r) /\
    _activities m' = _activities m /\
    length (heap m') = length (heap m) /\
    get_window m' r0 = Some w /\
    get_launching m' r0 = false /\
    get_activity_id m' r0 = wm_get_activity_id w /\
    (forall r', r' <> r0 -> heap m' !! r' = heap m !! r') /\
    trace m' =
      trace m ++ [Emitted activity_started (Some r0) (_activities m)]
              ++ match _pending_activity m with
                 | None => [Emitted pending_activity_changed (Some r0) (_activities m)]
                 | Some _ => []
                 end /\
    count_signal activity_added (trace m') = count_signal activity_added (trace m) /\
    count_signal activity_started (trace m')
      = S (count_signal activity_started (trace m)).
Proof.
  intros Ht Hid Hr Hsame.
  destruct (_get_activity_by_id_found m _ r Hr Hsame) as [r0 Hf].
  destruct (_get_activity_by_id_Some m _ r0 Hf) as [Hr0 Hid0].
  exists r0. cbv zeta. rewrite (_window_opened_cb_reuse reg srv w m r0 Ht Hid Hf).
  cbv zeta.
  assert (Hobj : exists o, heap m !! r0 = Some o).
  { unfold get_activity_id in Hid0. destruct (heap m !! r0) as [o|]; [by exists o|].
    rewrite <- Hid0 in Hid. done. }
  destruct Hobj as [o Ho].
  assert (Hlook : alter (attach w) r0 (heap m) !! r0 = Some (attach w o)).
  { by rewrite list_lookup_alter_eq, Ho. }
  assert (Hido : activity_id o = wm_get_activity_id w).
  { unfold get_activity_id in Hid0. by rewrite Ho in Hid0. }
  split; [done|]. split; [done|]. split.
  { intros Hu. destruct (decide (r0 = r)) as [|Hne]; [done|]. exfalso.
    apply (Hu r0 r Hr0 Hr Hne); [by rewrite Hid0 | congruence]. }
  destruct (_pending_activity m) as [p|] eqn:Hp.
  - cbn [_activities heap trace]. unfold get_window, get_launching, get_activity_id.
    cbn [heap]. rewrite Hlook, length_alter. cbn [attach window launching activity_id].
    repeat (split; [done|]).
    split; [intros r' Hne; by apply list_lookup_alter_ne|].
    split; [done|].
    split; count_trace.
  - unfold _set_pending_activity.
    cbn [_pending_activity]. rewrite decide_False by done.
    unfold emit, perform, with_pending.
    cbn [_activities _pending_activity heap trace].
    unfold get_window, get_launching, get_activity_id.
    cbn [heap]. rewrite Hlook, length_alter. cbn [attach window launching activity_id].
    repeat (split; [done|]).
    split; [intros r' Hne; by apply list_lookup_alter_ne|].
    split; [by rewrite <- app_assoc|].
    split; count_trace.
Qed.

End Reuse.

(** ** Replacement of the pending activity *)

Lemma _get_activity_by_xid_Some m xid n :
  _get_activity_by_xid m xid = Some n ->
  n ∈ _activities m /\ activity_get_xid m n = Some xid.
Proof.
  intros H. apply find_some_elem in H as [H1 H2].
  split; [done|]. by apply bool_decide_eq_true in H2.
Qed.

Lemma _get_activity_by_xid_found m xid r :
  r ∈ _activities m -> activity_get_xid m r = Some xid ->
  exists n, _get_activity_by_xid m xid = Some n.
Proof.
  intros Hr Hx. destruct (_get_activity_by_xid m xid) as [n|] eqn:E; [by exists n|].
  apply find_none_iff with (x := r) in E; [|done].
  apply bool_decide_eq_false in E. done.
Qed.

Lemma activity_get_xid_window m r xid :
  activity_get_xid m r = Some xid -> is_Some (get_window m r).
Proof. unfold activity_get_xid. destruct (get_window m r); [by eexists | done]. Qed.

Lemma get_window_ext m1 m2 r : heap m1 = heap m2 -> get_window m1 r = get_window m2 r.
Proof. unfold get_window. by intros ->. Qed.

Lemma head_tracked_top_down m ws n :
  head (tracked_top_down m ws) = Some n ->
  exists w, w ∈ ws /\ _get_activity_by_xid m (get_xid w) = Some n.
Proof.
  intros H. apply head_Some_elem_of in H. unfold tracked_top_down in H.
  apply list_elem_of_omap in H as (w & Hw & Hf).
  exists w. rewrite elem_of_reverse in Hw. split; [exact Hw | exact Hf].
Qed.

Lemma tracked_top_down_nonempty m ws w n :
  w ∈ ws -> _get_activity_by_xid m (get_xid w) = Some n ->
  is_Some (head (tracked_top_down m ws)).
Proof.
  intros Hw Hf. apply head_is_Some. intros E.
  assert (Hn : n ∈ tracked_top_down m ws).
  { unfold tracked_top_down. apply list_elem_of_omap. exists w.
    split; [|exact Hf]. by rewrite elem_of_reverse. }
  rewrite E in Hn. by apply elem_of_nil in Hn.
Qed.


(** ** Transitions of the registry *)

Section Transitions.

Variable reg : string -> option ActivityInfo.
Variable srv : option string -> option string.

Lemma _window_opened_cb_transition w m :
  transition (WindowOpened w) m (_window_opened_cb reg srv w m).
Proof.
  destruct (decide (get_window_type w = WINDOW_NORMAL)) as [Ht|Ht];
    [|rewrite _window_opened_cb_other by done; by apply tr_keep].
  destruct (truthy (wm_get_activity_id w)) eqn:Hid.
  - destruct (_get_activity_by_id m (wm_get_activity_id w)) as [r|] eqn:Hf.
    + rewrite (_window_opened_cb_reuse reg srv w m r Ht Hid Hf). cbv zeta.
      destruct (_get_activity_by_id_Some m _ r Hf) as [Hr _].
      apply (tr_attach _ _ _ r w); [done|..];
        destruct (_pending_activity m) as [p|] eqn:Hp; try done;
        unfold _set_pending_activity; cbn [_pending_activity];
        rewrite decide_False by done; done.
    + rewrite (_window_opened_cb_new reg srv w m Ht (or_intror Hf)). cbv zeta.
      apply (tr_open _ _ _ w
               (mkHomeActivity (window_info reg w) (wm_get_activity_id w)
                  (Some w) false (srv (wm_get_activity_id w))));
        [reflexivity | reflexivity | reflexivity | |..];
        [intros _ r Hr E;
           apply find_none_iff with (x := r) in Hf; [|done];
           by apply bool_decide_eq_false in Hf|..];
        destruct (_pending_activity m) as [p|] eqn:Hp;
        try (unfold _set_pending_activity; cbn [_pending_activity];
             rewrite decide_False by done); reflexivity.
  - rewrite (_window_opened_cb_new reg srv w m Ht (or_introl Hid)). cbv zeta.
    apply (tr_open _ _ _ w
             (mkHomeActivity (window_info reg w) (wm_get_activity_id w)
                (Some w) false (srv (wm_get_activity_id w))));
      [reflexivity | reflexivity | reflexivity | |..];
      [intros E; congruence|..];
      destruct (_pending_activity m) as [p|] eqn:Hp;
      try (unfold _set_pending_activity; cbn [_pending_activity];
           rewrite decide_False by done); reflexivity.
Qed.

Lemma _active_window_changed_cb_transition aw m :
  transition (ActiveWindowChanged aw) m (_active_window_changed_cb aw m).
Proof.
  unfold _active_window_changed_cb. destruct aw as [w|]; [|by apply tr_keep].
  cbv zeta.
  destruct (_get_activity_by_xid m _) as [a|] eqn:Hf; [|by apply tr_keep].
  destruct (_get_activity_by_xid_Some m _ a Hf) as [Ha Hx].
  destruct (_set_active_activity_frame (Some a) (_set_pending_activity (Some a) m))
    as (A1 & P1 & H1 & _).
  destruct (_set_pending_activity_frame (Some a) m) as (A2 & _ & H2 & P2).
  apply (tr_focus _ _ _ a); [done | by eapply activity_get_xid_window | | |].
  - by rewrite A1, A2.
  - by rewrite H1, H2.
  - by rewrite P1, P2.
Qed.

Lemma _remove_activity_transition ev ws r m m0 :
  removes ev m ws r ->
  _activities m0 = _activities m -> heap m0 = heap m ->
  _pending_activity m0 = _pending_activity m ->
  r ∈ _activities m ->
  exists m', _remove_activity ws r m0 = Done m' /\ transition ev m m'.
Proof.
  intros Hev A0 H0 P0 Hr. rewrite <- A0 in Hr.
  destruct (_remove_activity_spec ws r m0 Hr)
    as (m' & l1 & l2 & HD & _ & _ & Hl & Hn & Hl' & _ & _ & Hh & Hp).
  exists m'. split; [done|].
  apply (tr_remove _ _ _ ws r l1 l2); [done | congruence | done | done | congruence |].
  rewrite Hp, P0. by rewrite (tracked_top_down_ext m0 m ws A0 H0).
Qed.

Lemma step_transition ev m : transition ev m (step reg srv ev m).
Proof.
  unfold step, deliver. destruct ev as [w|ws w|aw|aid s|ws aid].
  - apply _window_opened_cb_transition.
  - unfold _window_closed_cb, _remove_activity_by_xid.
    destruct (decide (get_window_type w = WINDOW_NORMAL)) as [Ht|Ht];
      [|by apply tr_keep].
    destruct (_get_activity_by_xid m (get_xid w)) as [r|] eqn:Hf;
      [|by apply tr_keep].
    destruct (_get_activity_by_xid_Some m _ r Hf) as [Hr _].
    destruct (_remove_activity_transition (WindowClosed ws w) ws r m m)
      as (m' & -> & Htr); done.
  - apply _active_window_changed_cb_transition.
  - destruct (reg s) as [info|] eqn:Hs.
    + rewrite (notify_activity_launch_eq reg srv aid s info m Hs).
      by apply (tr_launch _ _ _ aid s
                  (mkHomeActivity (Some info) aid None true (srv aid))).
    + unfold notify_activity_launch. rewrite Hs. by apply tr_keep.
  - unfold notify_activity_launch_failed.
    destruct (_get_activity_by_id m aid) as [r|] eqn:Hf; [|by apply tr_keep].
    destruct (_get_activity_by_id_Some m _ r Hf) as [Hr _].
    destruct (_remove_activity_transition (ActivityLaunchFailed ws aid) ws r m
                (perform (Logged (debug_launch_failed aid)) m))
      as (m' & -> & Htr); done.
Qed.

End Transitions.

(** ** Invariants *)



Lemma get_window_append m m' o x :
  heap m' = heap m ++ [o] -> (x < length (heap m))%nat ->
  get_window m' x = get_window m x.
Proof. intros E Hx. unfold get_window. by rewrite E, lookup_app_l. Qed.

Lemma get_window_new m m' o :
  heap m' = heap m ++ [o] -> get_window m' (length (heap m)) = window o.
Proof.
  intros E. unfold get_window.
  rewrite E, lookup_app_r by lia. by rewrite Nat.sub_diag.
Qed.


Lemma get_window_attach_eq m m' r w :
  heap m' = alter (attach w) r (heap m) -> (r < length (heap m))%nat ->
  get_window m' r = Some w.
Proof.
  intros E Hr. unfold get_window. rewrite E, list_lookup_alter_eq.
  apply lookup_lt_is_Some in Hr as [o ->]. done.
Qed.

Lemma get_window_attach_ne m m' r w x :
  heap m' = alter (attach w) r (heap m) -> r <> x ->
  get_window m' x = get_window m x.
Proof.
  intros E Hne. unfold get_window. by rewrite E, list_lookup_alter_ne.
Qed.

Lemma elem_of_removed (r x : ref) (l1 l2 : list ref) :
  x ∈ l1 ++ l2 -> x ∈ l1 ++ r :: l2.
Proof.
  rewrite !elem_of_app, elem_of_cons. intros [?|?]; [by left | by right; right].
Qed.

Lemma elem_of_kept (r x : ref) (l1 l2 : list ref) :
  x ∈ l1 ++ r :: l2 -> x <> r -> x ∈ l1 ++ l2.
Proof.
  rewrite !elem_of_app, elem_of_cons. intros [?|[?|?]] Hne; [by left | done | by right].
Qed.

Lemma NoDup_removed (r : ref) (l1 l2 : list ref) :
  NoDup (l1 ++ r :: l2) -> NoDup (l1 ++ l2) /\ r ∉ l1 ++ l2.
Proof.
  rewrite !NoDup_app, NoDup_cons. intros (N1 & Hd & Hr & N2). split.
  - split; [done|]. split; [|done].
    intros x Hx1 Hx2. apply (Hd x Hx1). by right.
  - rewrite elem_of_app. intros [H|H]; [|done]. apply (Hd r H). by left.
Qed.

Lemma transition_well_formed ev m m' :
  transition ev m m' -> well_formed m -> well_formed m'.
Proof.
  intros Htr [Hb Hnd]. unfold well_formed.
  destruct Htr as [A H P | a Ha Hw A H P | r w Hr A H P
                  | w o Hev Hid Hwin Hfresh A H P | aid s o Hev Hid Hwin A H P
                  | ws r l1 l2 Hev Hl Hn A H P].
  - by rewrite A, H.
  - by rewrite A, H.
  - rewrite A, H, length_alter. done.
  - rewrite A, H, length_app. simpl. split.
    + intros x [Hx|Hx]%elem_of_app; [apply Hb in Hx; lia|].
      apply list_elem_of_singleton in Hx. lia.
    + apply NoDup_app. split; [done|]. split; [|apply NoDup_singleton].
      intros x Hx Hx'. apply list_elem_of_singleton in Hx'. apply Hb in Hx. lia.
  - rewrite A, H, length_app. simpl. split.
    + intros x [Hx|Hx]%elem_of_app; [apply Hb in Hx; lia|].
      apply list_elem_of_singleton in Hx. lia.
    + apply NoDup_app. split; [done|]. split; [|apply NoDup_singleton].
      intros x Hx Hx'. apply list_elem_of_singleton in Hx'. apply Hb in Hx. lia.
  - rewrite A, H. rewrite Hl in Hb, Hnd. split.
    + intros x Hx. apply Hb. by apply elem_of_removed.
    + by apply NoDup_removed in Hnd as [? _].
Qed.


Lemma removes_consistent ev m ws r :
  removes ev m ws r -> wm_consistent ev m ->
  _pending_activity m = Some r -> stack_consistent m r ws.
Proof.
  destruct ev as [w|ws' w|aw|aid s|ws' aid]; simpl; try done.
  - intros (-> & Ht & Hf) Hg Hp. by apply Hg.
  - intros (-> & Hf) Hg Hp. by apply Hg.
Qed.

Lemma transition_pending_windowed ev m m' :
  transition ev m m' -> well_formed m -> wm_consistent ev m ->
  pending_windowed m -> pending_windowed m'.
Proof.
  intros Htr [Hb Hnd] Hg [Hsome Hnone]. unfold pending_windowed.
  destruct Htr as [A H P | a Ha Hw A H P | r w Hr A H P
                  | w o Hev Hid Hwin Hfresh A H P | aid s o Hev Hid Hwin A H P
                  | ws r l1 l2 Hev Hl Hn A H P].
  - rewrite A, P. split.
    + intros p Hp. rewrite (get_window_ext m' m p H). by apply Hsome.
    + intros Hp x Hx. rewrite (get_window_ext m' m x H). by apply Hnone.
  - rewrite A, P. split; [|done].
    intros p [= <-]. by rewrite (get_window_ext m' m a H).
  - rewrite A, P. split; [|by destruct (_pending_activity m)].
    intros p Hp.
    assert (Hin : p ∈ _activities m /\ (p = r \/ is_Some (get_window m p))).
    { destruct (_pending_activity m) as [q|] eqn:Hq; injection Hp as <-.
      - destruct (Hsome q eq_refl). split; [done | by right].
      - split; [done | by left]. }
    destruct Hin as [Hin Hcase]. split; [done|].
    destruct (decide (r = p)) as [->|Hne].
    + rewrite (get_window_attach_eq m m' p w H (Hb p Hin)). by eexists.
    + rewrite (get_window_attach_ne m m' r w p H Hne).
      destruct Hcase as [->|?]; done.
  - rewrite A, P. split; [|by destruct (_pending_activity m)].
    intros p Hp. destruct (_pending_activity m) as [q|] eqn:Hq; injection Hp as <-.
    + destruct (Hsome q eq_refl) as [Hin Hwq]. split; [apply elem_of_app; by left|].
      by rewrite (get_window_append m m' o q H (Hb q Hin)).
    + split; [apply elem_of_app; right; by left|].
      rewrite (get_window_new m m' o H), Hwin. by eexists.
  - rewrite A, P. split.
    + intros p Hp. destruct (Hsome p Hp) as [Hin Hwp].
      split; [apply elem_of_app; by left|].
      by rewrite (get_window_append m m' o p H (Hb p Hin)).
    + intros Hp x [Hx|Hx]%elem_of_app.
      * rewrite (get_window_append m m' o x H (Hb x Hx)). by apply Hnone.
      * apply list_elem_of_singleton in Hx as ->.
        by rewrite (get_window_new m m' o H).
  - rewrite Hl in Hnd. apply NoDup_removed in Hnd as [_ Hnotin].
    rewrite A, P. destruct (decide (Some r = _pending_activity m)) as [E|E].
    + destruct (removes_consistent ev m ws r Hev Hg (eq_sym E)) as [Hout Hothers].
      split.
      * intros n En. destruct (head_tracked_top_down m ws n En) as (w & Hw & Hf).
        destruct (_get_activity_by_xid_Some m _ n Hf) as [Hin Hx].
        assert (Hne : n <> r) by (intros ->; by apply (Hout w Hw)).
        split; [rewrite Hl in Hin; by apply elem_of_kept in Hin|].
        rewrite (get_window_ext m' m n H). by eapply activity_get_xid_window.
      * intros En x Hx. rewrite (get_window_ext m' m x H).
        destruct (get_window m x) as [wx|] eqn:Hwx; [exfalso|done].
        assert (Hxr : x <> r) by (by intros ->).
        assert (Hxin : x ∈ _activities m)
          by (rewrite Hl; by apply elem_of_removed).
        destruct (Hothers x Hxin Hxr) as (w & Hw & Hxw); [by rewrite Hwx|].
        destruct (_get_activity_by_xid_found m _ x Hxin Hxw) as [n Hf].
        destruct (tracked_top_down_nonempty m ws w n Hw Hf) as [n' Hn'].
        congruence.
    + split.
      * intros p Hp. destruct (Hsome p Hp) as [Hin Hwp].
        assert (Hne : p <> r) by (intros ->; by rewrite Hp in E).
        split; [rewrite Hl in Hin; by apply elem_of_kept in Hin|].
        by rewrite (get_window_ext m' m p H).
      * intros Hp x Hx. rewrite (get_window_ext m' m x H).
        apply Hnone; [done|]. rewrite Hl. by apply elem_of_removed.
Qed.

(** ** Reachable states *)

Section Reachable.

Variable reg : string -> option ActivityInfo.
Variable srv : option string -> option string.

Lemma well_formed_init : well_formed HomeModel_init.
Proof. split; [intros r Hr; by apply elem_of_nil in Hr | apply NoDup_nil_2]. Qed.

Lemma reachable_well_formed G m : reachable reg srv G m -> well_formed m.
Proof.
  induction 1 as [|m ev Hm IH Hg]; [apply well_formed_init|].
  eapply transition_well_formed; [apply step_transition | done].
Qed.

Lemma windowed_elem m r :
  r ∈ _get_activities_with_window m <->
  r ∈ _activities m /\ is_Some (get_window m r).
Proof.
  unfold _get_activities_with_window. rewrite list_elem_of_filter. tauto.
Qed.

(** C1, as the code has it.  In every state reached by events during which,
    whenever the pending activity is removed, the window stack holds the
    windows of all other registered records and not the window of the removed
    one: the pending selector, when set, references a registered record that
    has a window; it is none only when no registered record has a window
    (records that are still launching do not count); so, as long as some
    registered record has a window, [get_pending_activity] returns a record of
    the windowed subsequence. *)
Theorem pending_activity_invariant (m : HomeModel) :
  reachable reg srv wm_consistent m ->
  (forall p, get_pending_activity m = Some p ->
     p ∈ _activities m /\ is_Some (get_window m p)) /\
  (get_pending_activity m = None ->
     forall r, r ∈ _activities m -> get_window m r = None) /\
  (_get_activities_with_window m <> [] ->
     exists p, get_pending_activity m = Some p /\
               p ∈ _get_activities_with_window m).
Proof.
  intros Hm.
  assert (Hinv : pending_windowed m).
  { induction Hm as [|m ev Hm IH Hg].
    - split; [done|]. intros _ r Hr. by apply elem_of_nil in Hr.
    - eapply transition_pending_windowed;
        [apply step_transition | by eapply reachable_well_formed | done | done]. }
  destruct Hinv as [Hsome Hnone]. unfold get_pending_activity.
  split; [done|]. split; [done|].
  intros Hne. destruct (_pending_activity m) as [p|] eqn:Hp.
  - exists p. split; [done|]. apply windowed_elem. by apply Hsome.
  - exfalso. destruct (_get_activities_with_window m) as [|x l] eqn:Hl; [done|].
    assert (Hx : x ∈ _get_activities_with_window m) by (rewrite Hl; left).
    apply windowed_elem in Hx as [Hx [wx Hwx]].
    rewrite (Hnone eq_refl x Hx) in Hwx. done.
Qed.


End Reachable.

(** ** Examples *)

Lemma notify_activity_launch_unknown_service_witness :
  notify_activity_launch demo_registry demo_service (Some "a9"%string)
    "org.example.Missing" one_window = Raised ValueError one_window.
Proof.
  apply (notify_activity_launch_unknown_service demo_registry demo_service
           (Some "a9"%string) "org.example.Missing" one_window).
  reflexivity.
Defined.

Lemma notify_activity_launch_frame_witness :
  exists m',
    notify_activity_launch demo_registry demo_service (Some "a9"%string)
      "org.laptop.WebActivity" one_window = Done m' /\
    _activities m' = [0%nat; 1%nat] /\
    _pending_activity m' = Some 0%nat.
Proof.
  destruct (notify_activity_launch_frame demo_registry demo_service
              (Some "a9"%string) "org.laptop.WebActivity" web_info one_window
              eq_refl)
    as (m' & HD & HA & _ & _ & _ & _ & _ & HP & _).
  exists m'. split; [exact HD|]. split; [exact HA | exact HP].
Defined.

Lemma unknown_removals_absorbed_witness :
  (exists m', _window_closed_cb [W1] W2 one_window = Done m' /\
              _activities m' = [0%nat]) /\
  (exists m', notify_activity_launch_failed [W1] (Some "a2"%string) one_window
              = Done m' /\ _activities m' = [0%nat]).
Proof.
  destruct (unknown_removals_absorbed [W1] W2 (Some "a2"%string) one_window)
    as [Hc Hf].
  split.
  - destruct Hc as (m' & HD & HA & _).
    + reflexivity.
    + intros r Hr. apply list_elem_of_singleton in Hr as ->.
      vm_compute. discriminate.
    + exists m'. split; [exact HD | exact HA].
  - destruct Hf as (m' & HD & HA & _).
    + intros r Hr. apply list_elem_of_singleton in Hr as ->.
      vm_compute. discriminate.
    + exists m'. split; [exact HD | exact HA].
Defined.


Lemma neighbours_cyclic_witness :
  get_next_activity three_windows = Return (Some 1%nat) /\
  get_previous_activity three_windows = Return (Some 2%nat).
Proof.
  destruct (neighbours_cyclic three_windows) as [H _].
  destruct (H 0%nat 0%nat) as (_ & Hn & _ & Hp).
  - reflexivity.
  - reflexivity.
  - intros j Hj. lia.
  - split; [exact Hn | exact Hp].
Defined.

Lemma _window_opened_cb_reuses_record_witness :
  exists r0,
    _activities (_window_opened_cb demo_registry demo_service W1 launching_only)
    = _activities launching_only /\
    get_window (_window_opened_cb demo_registry demo_service W1 launching_only) r0
    = Some W1 /\
    get_launching (_window_opened_cb demo_registry demo_service W1 launching_only) r0
    = false.
Proof.
  destruct (_window_opened_cb_reuses_record demo_registry demo_service W1
              launching_only 0%nat)
    as (r0 & _ & _ & _ & HA & _ & HW & HL & _).
  - reflexivity.
  - reflexivity.
  - left.
  - reflexivity.
  - exists r0. split; [exact HA|]. split; [exact HW | exact HL].
Defined.


Lemma pending_activity_invariant_witness :
  exists p, get_pending_activity one_window = Some p /\
            p ∈ _get_activities_with_window one_window.
Proof.
  destruct (pending_activity_invariant demo_registry demo_service one_window)
    as (_ & _ & H).
  - apply (reachable_step demo_registry demo_service wm_consistent
             HomeModel_init (WindowOpened W1)); [apply reachable_init | exact I].
  - apply H. vm_compute. discriminate.
Defined.


(** ** Where the claims fail on the code *)

(** C1 as stated fails: after a launch notification alone the registry is not
    empty and the pending selector is none. *)
Lemma pending_none_with_launching_record :
  get_pending_activity launching_only = None /\
  _activities launching_only = [0%nat] /\
  ~ (get_pending_activity launching_only = None -> _activities launching_only = []).
Proof.
  split; [reflexivity|]. split; [reflexivity|].
  intros H. specialize (H eq_refl). discriminate H.
Qed.


(** C3 as stated fails: with a windowed activity registered and a pending
    selector that is not in the windowed subsequence, both queries raise. *)
Lemma neighbours_raise_when_pending_not_windowed :
  _get_activities_with_window failed_after_start = [1%nat] /\
  _pending_activity failed_after_start = Some 0%nat /\
  get_next_activity failed_after_start = Raise ValueError /\
  get_previous_activity failed_after_start = Raise ValueError /\
  ~ (exists found, get_next_activity failed_after_start = Return found).
Proof.
  repeat split. intros [found H]. vm_compute in H. discriminate H.
Qed.

(** The emptiness test of both queries comes after the [index] call and is
    never reached: on an empty windowed subsequence they raise as well. *)
Lemma neighbours_of_empty_windowed (m : HomeModel) :
  _get_activities_with_window m = [] ->
  get_next_activity m = Raise ValueError /\
  get_previous_activity m = Raise ValueError.
Proof.
  intros E. unfold get_next_activity, get_previous_activity.
  rewrite E. split; reflexivity.
Qed.


(** * Further properties of the model *)

(** ** Effects of the setters *)

Lemma call_SetActive_eq r b m :
  call_SetActive r b m =
  mkHomeModel (_activities m) (_active_activity m) (_pending_activity m)
    (heap m) (trace m ++ remote_call m r b).
Proof.
  unfold call_SetActive, remote_call. destruct m as [a ac p h t]. simpl.
  destruct r as [x|]; [|by rewrite app_nil_r].
  unfold get_service. simpl. destruct (h !! x) as [o|]; [|by rewrite app_nil_r].
  destruct (service o); [done | by rewrite app_nil_r].
Qed.

Lemma remote_call_ext m1 m2 r b :
  heap m1 = heap m2 -> remote_call m1 r b = remote_call m2 r b.
Proof. intros E. unfold remote_call, get_service. by rewrite E. Qed.

Lemma _set_active_activity_eq h m :
  _set_active_activity h m =
  mkHomeModel (_activities m) h (_pending_activity m) (heap m)
    (trace m ++ active_effects m h).
Proof.
  unfold _set_active_activity, active_effects.
  destruct (decide (_active_activity m = h)) as [E|E].
  - destruct m as [a ac p hp t]. simpl in *. subst. by rewrite app_nil_r.
  - rewrite !call_SetActive_eq. unfold emit, perform, with_active.
    cbn [_activities _active_activity _pending_activity heap trace].
    rewrite (remote_call_ext _ m h true) by done.
    by rewrite <- !app_assoc.
Qed.

Lemma _set_pending_activity_eq h m :
  _set_pending_activity h m =
  mkHomeModel (_activities m) (_active_activity m) h (heap m)
    (trace m ++ pending_effects m h).
Proof.
  unfold _set_pending_activity, pending_effects.
  destruct (decide (_pending_activity m = h)) as [E|E].
  - destruct m as [a ac p hp t]. simpl in *. subst. by rewrite app_nil_r.
  - reflexivity.
Qed.

Lemma active_effects_counts m h :
  count_signal activity_added (active_effects m h) = 0%nat /\
  count_signal activity_removed (active_effects m h) = 0%nat /\
  count_signal pending_activity_changed (active_effects m h) = 0%nat.
Proof.
  unfold active_effects, remote_call. case_decide; [done|].
  destruct (_active_activity m) as [a|]; [destruct (get_service m a)|];
    (destruct h as [x|]; [destruct (get_service m x)|]); repeat split; count_trace.
Qed.

Lemma pending_effects_counts m h :
  count_signal activity_added (pending_effects m h) = 0%nat /\
  count_signal activity_removed (pending_effects m h) = 0%nat /\
  count_signal active_activity_changed (pending_effects m h) = 0%nat.
Proof.
  unfold pending_effects. case_decide; [done|]. repeat split; count_trace.
Qed.

(** ** What each event does *)

Section Summary.

Variable reg : string -> option ActivityInfo.
Variable srv : option string -> option string.

Lemma _window_opened_cb_summary w m :
  step_case reg srv (WindowOpened w) m (_window_opened_cb reg srv w m).
Proof.
  destruct (decide (get_window_type w = WINDOW_NORMAL)) as [Ht|Ht].
  2:{ rewrite _window_opened_cb_other by done.
      apply (sc_keep _ _ _ _ _ []); try done; [by rewrite app_nil_r | by left]. }
  assert (Hnew : truthy (wm_get_activity_id w) = false \/
                 _get_activity_by_id m (wm_get_activity_id w) = None ->
                 step_case reg srv (WindowOpened w) m (_window_opened_cb reg srv w m)).
  { intros Hn. rewrite (_window_opened_cb_new reg srv w m Ht Hn). cbv zeta.
    apply (sc_open _ _ _ _ _ w); [reflexivity|..];
      destruct (_pending_activity m) as [p|] eqn:Hp;
      rewrite ?_set_pending_activity_eq; unfold pending_effects;
      cbn [_activities _active_activity _pending_activity heap trace];
      rewrite ?decide_False by done; try done.
    all: by rewrite <- app_assoc. }
  destruct (truthy (wm_get_activity_id w)) eqn:Hid; [|apply Hnew; by left].
  destruct (_get_activity_by_id m (wm_get_activity_id w)) as [r|] eqn:Hf;
    [|apply Hnew; by right].
  rewrite (_window_opened_cb_reuse reg srv w m r Ht Hid Hf). cbv zeta.
  destruct (_get_activity_by_id_Some m _ r Hf) as [Hr _].
  apply (sc_attach _ _ _ _ _ w r); [reflexivity | done |..];
    destruct (_pending_activity m) as [p|] eqn:Hp;
    rewrite ?_set_pending_activity_eq; unfold pending_effects;
    cbn [_activities _active_activity _pending_activity heap trace];
    rewrite ?decide_False by done; try done.
  all: by rewrite <- app_assoc.
Qed.

Lemma _active_window_changed_cb_eq w m a :
  _get_activity_by_xid m (get_xid (focus_window w)) = Some a ->
  _active_window_changed_cb (Some w) m =
  mkHomeModel (_activities m) (Some a) (Some a) (heap m)
    (trace m ++ pending_effects m (Some a) ++ active_effects m (Some a)).
Proof.
  intros Hf. unfold _active_window_changed_cb. cbv zeta.
  change (if decide (get_window_type w <> WINDOW_DIALOG) then topmost w else w)
    with (focus_window w).
  rewrite Hf, _set_active_activity_eq, _set_pending_activity_eq.
  cbn [_activities _active_activity _pending_activity heap trace].
  unfold active_effects.
  cbn [_activities _active_activity _pending_activity heap trace].
  rewrite !(remote_call_ext
              (mkHomeModel (_activities m) (_active_activity m) (Some a) (heap m)
                 (trace m ++ pending_effects m (Some a))) m) by done.
  by rewrite <- app_assoc.
Qed.

Lemma _active_window_changed_cb_summary aw m :
  step_case reg srv (ActiveWindowChanged aw) m (_active_window_changed_cb aw m).
Proof.
  assert (Hkeep : step_case reg srv (ActiveWindowChanged aw) m m).
  { apply (sc_keep _ _ _ _ _ []); try done; [by rewrite app_nil_r | by left]. }
  destruct aw as [w|]; [|exact Hkeep].
  destruct (_get_activity_by_xid m (get_xid (focus_window w))) as [a|] eqn:Hf.
  - rewrite (_active_window_changed_cb_eq w m a Hf).
    by apply (sc_focus _ _ _ _ _ w a).
  - unfold _active_window_changed_cb. cbv zeta.
    change (if decide (get_window_type w <> WINDOW_DIALOG) then topmost w else w)
      with (focus_window w).
    by rewrite Hf.
Qed.

Lemma _remove_activity_summary ev ws r m m0 t0 :
  removes ev m ws r ->
  _activities m0 = _activities m -> _active_activity m0 = _active_activity m ->
  _pending_activity m0 = _pending_activity m -> heap m0 = heap m ->
  trace m0 = trace m ++ t0 ->
  count_signal activity_added t0 = 0%nat ->
  count_signal activity_removed t0 = 0%nat ->
  r ∈ _activities m ->
  exists m', _remove_activity ws r m0 = Done m' /\ step_case reg srv ev m m'.
Proof.
  intros Hev A0 Ac0 P0 H0 T0 Ca Cr Hr. rewrite <- A0 in Hr.
  destruct (_remove_activity_spec ws r m0 Hr)
    as (m' & l1 & l2 & HD & HT & _ & Hl & Hn & Hl' & Ha1 & Ha2 & Hh & Hp).
  exists m'. split; [done|]. cbv zeta in HT.
  set (A := if decide (Some r = _active_activity m0)
            then match get_service m0 r with
                 | Some _ => [SetActive r false]
                 | None => []
                 end ++ [Emitted active_activity_changed None (_activities m0)]
            else []) in HT.
  set (P := if decide (Some r = _pending_activity m0)
            then match head (tracked_top_down m0 ws) with
                 | Some n =>
                     if decide (n = r) then []
                     else [Emitted pending_activity_changed (Some n) (_activities m0)]
                 | None =>
                     [Logged error_no_activities_running;
                      Emitted pending_activity_changed None (_activities m0)]
                 end
            else []) in HT.
  assert (CA : count_signal activity_added A = 0%nat /\
               count_signal activity_removed A = 0%nat).
  { subst A. destruct (decide (Some r = _active_activity m0));
      [destruct (get_service m0 r)|]; split; count_trace. }
  assert (CP : count_signal activity_added P = 0%nat /\
               count_signal activity_removed P = 0%nat).
  { subst P. destruct (decide (Some r = _pending_activity m0));
      [destruct (head (tracked_top_down m0 ws)) as [n|];
       [destruct (decide (n = r))|]|]; split; count_trace. }
  destruct CA as [CA1 CA2]. destruct CP as [CP1 CP2].
  apply (sc_remove _ _ _ _ _ ws r l1 l2 (t0 ++ A ++ P)).
  - done.
  - congruence.
  - done.
  - done.
  - rewrite <- Ac0.
    destruct (decide (Some r = _active_activity m0)); [by apply Ha1 | by apply Ha2].
  - rewrite Hp, P0. by rewrite (tracked_top_down_ext m0 m ws A0 H0).
  - congruence.
  - rewrite HT, T0, A0. by rewrite <- !app_assoc.
  - rewrite !count_signal_app. lia.
  - rewrite !count_signal_app. lia.
Qed.

Lemma step_summary ev m : step_case reg srv ev m (step reg srv ev m).
Proof.
  assert (Hkeep : step_case reg srv ev m m).
  { apply (sc_keep _ _ _ _ _ []); try done; [by rewrite app_nil_r | by left]. }
  assert (Hlog : forall l, step_case reg srv ev m (perform (Logged l) m)).
  { intros l. apply (sc_keep _ _ _ _ _ [Logged l]); try done. right. by exists l. }
  unfold step, deliver. destruct ev as [w|ws w|aw|aid s|ws aid].
  - apply _window_opened_cb_summary.
  - unfold _window_closed_cb, _remove_activity_by_xid.
    destruct (decide (get_window_type w = WINDOW_NORMAL)) as [Ht|Ht]; [|exact Hkeep].
    destruct (_get_activity_by_xid m (get_xid w)) as [r|] eqn:Hf; [|apply Hlog].
    destruct (_get_activity_by_xid_Some m _ r Hf) as [Hr _].
    destruct (_remove_activity_summary (WindowClosed ws w) ws r m m [])
      as (m' & -> & Hsc); try done. by rewrite app_nil_r.
  - apply _active_window_changed_cb_summary.
  - destruct (reg s) as [info|] eqn:Hs.
    + rewrite (notify_activity_launch_eq reg srv aid s info m Hs).
      by apply (sc_launch _ _ _ _ _ aid s info).
    + unfold notify_activity_launch. rewrite Hs. exact Hkeep.
  - unfold notify_activity_launch_failed.
    destruct (_get_activity_by_id m aid) as [r|] eqn:Hf; [|apply Hlog].
    destruct (_get_activity_by_id_Some m _ r Hf) as [Hr _].
    destruct (_remove_activity_summary (ActivityLaunchFailed ws aid) ws r m
                (perform (Logged (debug_launch_failed aid)) m)
                [Logged (debug_launch_failed aid)])
      as (m' & -> & Hsc); done.
Qed.

End Summary.

(** ** Invariants of every reachable state *)

Lemma get_window_lt m x :
  is_Some (get_window m x) -> (x < length (heap m))%nat.
Proof.
  unfold get_window. intros [w Hw].
  destruct (heap m !! x) as [o|] eqn:E; [|done]. by eapply lookup_lt_Some.
Qed.

Lemma get_window_attach_mono m m' r w x :
  heap m' = alter (attach w) r (heap m) ->
  is_Some (get_window m x) -> is_Some (get_window m' x).
Proof.
  intros E Hx. destruct (decide (r = x)) as [->|Hne].
  - rewrite (get_window_attach_eq m m' x w E (get_window_lt m x Hx)). by eexists.
  - by rewrite (get_window_attach_ne m m' r w x E Hne).
Qed.

Section Invariants.

Variable reg : string -> option ActivityInfo.
Variable srv : option string -> option string.

Lemma step_case_selectors ev m m' :
  step_case reg srv ev m m' -> well_formed m ->
  selectors_windowed m -> selectors_windowed m'.
Proof.
  intros Hsc [Hb Hnd] [Hact Hpen]. unfold selectors_windowed.
  destruct Hsc as [t A Ac P H T Ht | w a Hev Hf A Ac P H T
                  | w r Hev Hr A Ac P H T | w Hev n A Ac P H T
                  | aid s info Hev n A Ac P H T
                  | ws r l1 l2 t Hev Hl Hn A Ac P H T Ca Cr].
  - rewrite A, Ac, P. split.
    + intros a Ha. rewrite (get_window_ext m' m a H). by apply Hact.
    + intros p Hp. rewrite (get_window_ext m' m p H). by apply Hpen.
  - destruct (_get_activity_by_xid_Some m _ a Hf) as [Ha Hx].
    apply activity_get_xid_window in Hx.
    rewrite A, Ac, P. split.
    + intros ? [= <-]. by rewrite (get_window_ext m' m a H).
    + intros ? [= <-]. by rewrite (get_window_ext m' m a H).
  - rewrite A, Ac, P. split.
    + intros a Ha. destruct (Hact a Ha) as [Hin Hw]. split; [done|].
      by eapply get_window_attach_mono.
    + intros p Hp. destruct (_pending_activity m) as [q|] eqn:Hq; injection Hp as <-.
      * eapply get_window_attach_mono; [done|]. by apply Hpen.
      * rewrite (get_window_attach_eq m m' r w H (Hb r Hr)). by eexists.
  - subst n. rewrite A, Ac, P. split.
    + intros a Ha. destruct (Hact a Ha) as [Hin Hw].
      split; [apply elem_of_app; by left|].
      by rewrite (get_window_append m m' _ a H (get_window_lt m a Hw)).
    + intros p Hp. destruct (_pending_activity m) as [q|] eqn:Hq; injection Hp as <-.
      * rewrite (get_window_append m m' _ q H (get_window_lt m q (Hpen q eq_refl))).
        by apply Hpen.
      * rewrite (get_window_new m m' _ H). by eexists.
  - subst n. rewrite A, Ac, P. split.
    + intros a Ha. destruct (Hact a Ha) as [Hin Hw].
      split; [apply elem_of_app; by left|].
      by rewrite (get_window_append m m' _ a H (get_window_lt m a Hw)).
    + intros p Hp.
      rewrite (get_window_append m m' _ p H (get_window_lt m p (Hpen p Hp))).
      by apply Hpen.
  - rewrite A, Ac, P. split.
    + intros a Ha. destruct (decide (Some r = _active_activity m)) as [E|E]; [done|].
      destruct (Hact a Ha) as [Hin Hw].
      assert (Hne : a <> r) by (intros ->; by rewrite Ha in E).
      split; [rewrite Hl in Hin; by apply elem_of_kept in Hin|].
      by rewrite (get_window_ext m' m a H).
    + intros p Hp. rewrite (get_window_ext m' m p H).
      destruct (decide (Some r = _pending_activity m)) as [E|E]; [|by apply Hpen].
      destruct (head_tracked_top_down m ws p Hp) as (w & Hw & Hf).
      destruct (_get_activity_by_xid_Some m _ p Hf) as [_ Hx].
      by eapply activity_get_xid_window.
Qed.

Lemma step_case_launching ev m m' :
  step_case reg srv ev m m' ->
  launching_consistent m -> launching_consistent m'.
Proof.
  intros Hsc Hinv. unfold launching_consistent.
  destruct Hsc as [t A Ac P H T Ht | w a Hev Hf A Ac P H T
                  | w r Hev Hr A Ac P H T | w Hev n A Ac P H T
                  | aid s info Hev n A Ac P H T
                  | ws r l1 l2 t Hev Hl Hn A Ac P H T Ca Cr];
    rewrite H; try exact Hinv.
  - intros x o. destruct (decide (r = x)) as [->|Hne].
    + rewrite list_lookup_alter_eq. destruct (heap m !! x); [|done].
      intros [= <-]. simpl. split; done.
    + rewrite list_lookup_alter_ne by done. apply Hinv.
  - intros x o [Ho|[_ Ho]]%lookup_app_Some; [by eapply Hinv|].
    apply list_lookup_singleton_Some in Ho as [_ <-]. simpl. split; done.
  - intros x o [Ho|[_ Ho]]%lookup_app_Some; [by eapply Hinv|].
    apply list_lookup_singleton_Some in Ho as [_ <-]. simpl. split; done.
Qed.

Lemma step_case_balance ev m m' :
  step_case reg srv ev m m' ->
  count_signal activity_added (trace m)
  = (length (_activities m) + count_signal activity_removed (trace m))%nat ->
  count_signal activity_added (trace m')
  = (length (_activities m') + count_signal activity_removed (trace m'))%nat.
Proof.
  intros Hsc Hinv.
  destruct Hsc as [t A Ac P H T Ht | w a Hev Hf A Ac P H T
                  | w r Hev Hr A Ac P H T | w Hev n A Ac P H T
                  | aid s info Hev n A Ac P H T
                  | ws r l1 l2 t Hev Hl Hn A Ac P H T Ca Cr];
    rewrite A, T.
  - destruct Ht as [->|[l ->]]; count_trace.
  - destruct (pending_effects_counts m (Some a)) as (P1 & P2 & _).
    destruct (active_effects_counts m (Some a)) as (A1 & A2 & _).
    rewrite !count_signal_app. lia.
  - destruct (_pending_activity m); count_trace.
  - rewrite length_app. simpl. destruct (_pending_activity m); count_trace.
  - rewrite length_app. simpl. count_trace.
  - rewrite Hl, !length_app in Hinv. simpl in Hinv.
    rewrite length_app, !count_signal_app, Ca, Cr. count_trace.
Qed.

Lemma reachable_any_run evs m :
  reachable reg srv any_event m ->
  reachable reg srv any_event (run reg srv evs m).
Proof.
  revert m. induction evs as [|ev evs IH]; intros m Hm; [done|].
  simpl. apply IH. by apply reachable_step.
Qed.

Lemma reachable_selectors_inv G m :
  reachable reg srv G m -> selectors_windowed m.
Proof.
  intros Hm. induction Hm as [|m ev Hm IH Hg]; [by split|].
  eapply step_case_selectors;
    [apply step_summary | by eapply reachable_well_formed | done].
Qed.

(** X1. In every reachable state no record is registered twice and every
    registered reference points to an object of the heap. *)
Theorem reachable_registry_no_duplicates G (m : HomeModel) :
  reachable reg srv G m ->
  NoDup (__iter__ m) /\
  (forall r, r ∈ __iter__ m -> is_Some (heap m !! r)).
Proof.
  intros Hm. destruct (reachable_well_formed reg srv G m Hm) as [Hb Hnd].
  split; [done|]. intros r Hr. apply lookup_lt_is_Some. by apply Hb.
Qed.

(** X2. In every reachable state, whatever the window manager reported: the
    active activity, when set, is a registered record that has a window, and
    the pending activity, when set, has a window. *)
Theorem reachable_selectors_windowed G (m : HomeModel) :
  reachable reg srv G m ->
  (forall a, get_active_activity m = Some a ->
     a ∈ _activities m /\ is_Some (get_window m a)) /\
  (forall p, get_pending_activity m = Some p -> is_Some (get_window m p)).
Proof. apply reachable_selectors_inv. Qed.

(** X3. In every reachable state each object of the heap, registered or
    already removed, is launching exactly when it has no window. *)
Theorem reachable_launching_consistent G (m : HomeModel) :
  reachable reg srv G m ->
  forall r o, heap m !! r = Some o -> (launching o = true <-> window o = None).
Proof.
  intros Hm. change (launching_consistent m).
  induction Hm as [|m ev Hm IH Hg]; [by intros r o Ho|].
  eapply step_case_launching; [apply step_summary | done].
Qed.

(** X4. In every reachable state the number of [activity-added] emissions
    equals the length of the registry plus the number of [activity-removed]
    emissions. *)
Theorem reachable_signal_balance G (m : HomeModel) :
  reachable reg srv G m ->
  Z.of_nat (count_signal activity_added (trace m))
  = __len__ m + Z.of_nat (count_signal activity_removed (trace m)).
Proof.
  intros Hm. unfold __len__.
  assert (H : count_signal activity_added (trace m)
              = (length (_activities m)
                 + count_signal activity_removed (trace m))%nat); [|lia].
  induction Hm as [|m ev Hm IH Hg]; [done|].
  eapply step_case_balance; [apply step_summary | done].
Qed.

End Invariants.

(** ** Length of the registry, and exceptions *)

Section Accounting.

Variable reg : string -> option ActivityInfo.
Variable srv : option string -> option string.

Lemma _remove_activity_length ws r m :
  r ∈ _activities m ->
  exists m', _remove_activity ws r m = Done m' /\
    __len__ m' = __len__ m - 1.
Proof.
  intros Hr.
  destruct (_remove_activity_spec ws r m Hr)
    as (m' & l1 & l2 & HD & _ & _ & Hl & _ & Hl' & _).
  exists m'. split; [done|]. unfold __len__.
  rewrite Hl, Hl', !length_app. simpl. lia.
Qed.

(** X5. Each event changes the length of the registry by exactly [growth]:
    a normal window that is opened adds one record unless its non-empty
    activity id is that of a registered record; a normal window that is
    closed and a failed launch remove one record when a record matches and
    none otherwise; a launch notification adds one record when the bundle
    registry knows the service name; nothing else changes the length. *)
Theorem registry_length_step (ev : event) (m : HomeModel) :
  __len__ (step reg srv ev m) = __len__ m + growth reg ev m.
Proof.
  unfold step, deliver, growth. destruct ev as [w|ws w|aw|aid s|ws aid].
  - destruct (decide (get_window_type w = WINDOW_NORMAL)) as [Ht|Ht];
      [|rewrite _window_opened_cb_other by done; lia].
    assert (Hnew : truthy (wm_get_activity_id w) = false \/
                   _get_activity_by_id m (wm_get_activity_id w) = None ->
                   __len__ (_window_opened_cb reg srv w m) = __len__ m + 1).
    { intros Hn. rewrite (_window_opened_cb_new reg srv w m Ht Hn). cbv zeta.
      unfold __len__.
      destruct (_pending_activity m); rewrite ?_set_pending_activity_eq;
        cbn [_activities]; rewrite length_app; simpl; lia. }
    destruct (truthy (wm_get_activity_id w)) eqn:Hid; [|apply Hnew; by left].
    destruct (_get_activity_by_id m (wm_get_activity_id w)) as [r|] eqn:Hf;
      [|apply Hnew; by right].
    rewrite (_window_opened_cb_reuse reg srv w m r Ht Hid Hf). cbv zeta.
    unfold __len__.
    destruct (_pending_activity m); rewrite ?_set_pending_activity_eq;
      cbn [_activities]; lia.
  - unfold _window_closed_cb, _remove_activity_by_xid.
    destruct (decide (get_window_type w = WINDOW_NORMAL)) as [Ht|Ht]; [|lia].
    destruct (_get_activity_by_xid m (get_xid w)) as [r|] eqn:Hf;
      [|unfold __len__; simpl; lia].
    destruct (_get_activity_by_xid_Some m _ r Hf) as [Hr _].
    destruct (_remove_activity_length ws r m Hr) as (m' & -> & Hlen). lia.
  - destruct (_active_window_changed_cb_summary reg srv aw m)
      as [t A Ac P H T Ht | w a Hev Hf A Ac P H T
         | w r Hev Hr A Ac P H T | w Hev n A Ac P H T
         | aid s info Hev n A Ac P H T
         | ws r l1 l2 t Hev Hl Hn A Ac P H T Ca Cr];
      try discriminate Hev; try (by destruct Hev);
      unfold __len__; rewrite A; lia.
  - destruct (reg s) as [info|] eqn:Hs.
    + rewrite (notify_activity_launch_eq reg srv aid s info m Hs).
      unfold __len__. cbn [_activities]. rewrite length_app. simpl. lia.
    + unfold notify_activity_launch. rewrite Hs. lia.
  - unfold notify_activity_launch_failed.
    destruct (_get_activity_by_id m aid) as [r|] eqn:Hf;
      [|unfold __len__; simpl; lia].
    destruct (_get_activity_by_id_Some m _ r Hf) as [Hr _].
    destruct (_remove_activity_length ws r
                (perform (Logged (debug_launch_failed aid)) m) Hr)
      as (m' & -> & Hlen).
    unfold __len__ in *. simpl in Hlen. lia.
Qed.

(** X6. The only exception that leaves an event handler is the [ValueError]
    of a launch notification whose service name the bundle registry does not
    know, and it leaves the model untouched; the window events and the launch
    failure notification never raise. *)
Theorem deliver_raises_only_unknown_service
    (ev : event) (m m' : HomeModel) (e : exn) :
  deliver reg srv ev m = Raised e m' ->
  e = ValueError /\ m' = m /\
  exists aid s, ev = ActivityLaunch aid s /\ reg s = None.
Proof.
  unfold deliver. destruct ev as [w|ws w|aw|aid s|ws aid]; try discriminate.
  - unfold _window_closed_cb, _remove_activity_by_xid.
    destruct (decide (get_window_type w = WINDOW_NORMAL)); [|discriminate].
    destruct (_get_activity_by_xid m (get_xid w)) as [r|] eqn:Hf; [|discriminate].
    destruct (_get_activity_by_xid_Some m _ r Hf) as [Hr _].
    destruct (_remove_activity_length ws r m Hr) as (m1 & -> & _). discriminate.
  - unfold notify_activity_launch. destruct (reg s) as [info|] eqn:Hs.
    + discriminate.
    + intros [= <- <-]. split; [done|]. split; [done|]. by exists aid, s.
  - unfold notify_activity_launch_failed.
    destruct (_get_activity_by_id m aid) as [r|] eqn:Hf; [|discriminate].
    destruct (_get_activity_by_id_Some m _ r Hf) as [Hr _].
    destruct (_remove_activity_length ws r
                (perform (Logged (debug_launch_failed aid)) m) Hr)
      as (m1 & -> & _).
    discriminate.
Qed.

End Accounting.

(** X7. [_remove_activity] on a record that is not registered emits
    [activity-removed] for it all the same and then fails with the
    [ValueError] of [list.remove]; the registry and the heap are left as they
    were. *)
Theorem _remove_activity_unregistered
    (windows_stacked : list Window) (r : ref) (m : HomeModel) :
  r ∉ _activities m ->
  exists m',
    _remove_activity windows_stacked r m = Raised ValueError m' /\
    _activities m' = _activities m /\
    heap m' = heap m /\
    last (trace m') = Some (Emitted activity_removed (Some r) (_activities m)).
Proof.
  intros Hr. unfold _remove_activity. cbv zeta.
  set (m1 := if decide (Some r = _active_activity m)
             then _set_active_activity None m else m).
  assert (F1 : _activities m1 = _activities m /\ heap m1 = heap m).
  { subst m1. case_decide; [|done].
    destruct (_set_active_activity_frame None m) as (?&?&?&?). done. }
  destruct F1 as [A1 H1].
  set (m2 := if decide (Some r = _pending_activity m1)
             then pick_pending (reverse windows_stacked) m1 else m1).
  assert (F2 : _activities m2 = _activities m1 /\ heap m2 = heap m1).
  { subst m2. case_decide; [|done].
    destruct (pick_pending_frame (reverse windows_stacked) m1) as (?&?&?&?). done. }
  destruct F2 as [A2 H2].
  unfold emit, perform. cbn [_activities].
  rewrite list_remove_not_elem by (by rewrite A2, A1).
  eexists. split; [reflexivity|].
  cbn [_activities heap trace]. rewrite A2, A1, H2, H1.
  split; [done|]. split; [done|]. by rewrite last_snoc.
Qed.

(** ** Window events *)



Section WindowEvents.

Variable reg : string -> option ActivityInfo.
Variable srv : option string -> option string.

(** X9. A normal window is opened whose activity id is absent or empty, or
    is not the id of any registered record.  Then one record is allocated and
    appended at the end of the registry: it carries the window, its activity
    id and the bundle metadata of the window's bundle id (none when the bundle
    id is absent or empty), and it is not launching.  [activity-added], then
    [activity-started], are emitted for it, and [pending-activity-changed]
    after them exactly when pending was none, which then becomes this record.
    The active selector and the objects already on the heap are unchanged. *)
Theorem _window_opened_cb_creates_record (w : Window) (m : HomeModel) :
  get_window_type w = WINDOW_NORMAL ->
  (truthy (wm_get_activity_id w) = false \/
   forall r, r ∈ _activities m -> get_activity_id m r <> wm_get_activity_id w) ->
  let m' := _window_opened_cb reg srv w m in
  let n := length (heap m) in
  _activities m' = _activities m ++ [n] /\
  heap m' = heap m ++ [mkHomeActivity (window_info reg w) (wm_get_activity_id w)
                         (Some w) false (srv (wm_get_activity_id w))] /\
  get_window m' n = Some w /\
  get_launching m' n = false /\
  get_activity_id m' n = wm_get_activity_id w /\
  (truthy (wm_get_bundle_id w) = false -> window_info reg w = None) /\
  (forall r o, heap m !! r = Some o -> heap m' !! r = Some o) /\
  _active_activity m' = _active_activity m /\
  _pending_activity m' =
    match _pending_activity m with None => Some n | Some p => Some p end /\
  trace m' =
    trace m ++ [Emitted activity_added (Some n) (_activities m ++ [n]);
                Emitted activity_started (Some n) (_activities m ++ [n])]
            ++ match _pending_activity m with
               | None => [Emitted pending_activity_changed (Some n)
                            (_activities m ++ [n])]
               | Some _ => []
               end.
Proof.
  intros Ht Hnew m' n.
  assert (Hn : truthy (wm_get_activity_id w) = false \/
               _get_activity_by_id m (wm_get_activity_id w) = None).
  { destruct Hnew as [?|Hnone]; [by left | right].
    apply find_none_iff. intros r Hr. apply bool_decide_eq_false. by apply Hnone. }
  assert (E : m' =
    mkHomeModel (_activities m ++ [n]) (_active_activity m)
      (match _pending_activity m with None => Some n | Some p => Some p end)
      (heap m ++ [mkHomeActivity (window_info reg w) (wm_get_activity_id w)
                    (Some w) false (srv (wm_get_activity_id w))])
      (trace m ++ [Emitted activity_added (Some n) (_activities m ++ [n]);
                   Emitted activity_started (Some n) (_activities m ++ [n])]
               ++ match _pending_activity m with
                  | None => [Emitted pending_activity_changed (Some n)
                               (_activities m ++ [n])]
                  | Some _ => []
                  end)).
  { subst m' n. rewrite (_window_opened_cb_new reg srv w m Ht Hn). cbv zeta.
    destruct (_pending_activity m) as [p|] eqn:Hp.
    - by rewrite app_nil_r.
    - rewrite _set_pending_activity_eq. unfold pending_effects.
      cbn [_activities _active_activity _pending_activity heap trace].
      rewrite decide_False by done. by rewrite <- app_assoc. }
  rewrite E. cbn [_activities _active_activity _pending_activity heap trace].
  unfold get_window, get_launching, get_activity_id. cbn [heap].
  assert (Hl : (heap m ++ [mkHomeActivity (window_info reg w) (wm_get_activity_id w)
                             (Some w) false (srv (wm_get_activity_id w))]) !! n
               = Some (mkHomeActivity (window_info reg w) (wm_get_activity_id w)
                         (Some w) false (srv (wm_get_activity_id w)))).
  { subst n. rewrite lookup_app_r by lia. by rewrite Nat.sub_diag. }
  rewrite Hl. cbn [window launching activity_id].
  repeat (split; [done|]).
  split.
  { unfold window_info. intros Hb. destruct (wm_get_bundle_id w); [|done].
    by rewrite Hb. }
  split; [intros r o Ho; by apply lookup_app_l_Some|]. done.
Qed.

(** X10. Whatever window is opened, the handler never changes the active
    selector, never replaces a pending activity that is set, never removes
    or reorders registered records (the registry is extended at its end by
    at most one record), and its only effects are emissions of
    [activity-added], [activity-started] and [pending-activity-changed]: no
    remote call, no log record, no other signal.  A window that is not of
    normal type changes nothing at all. *)
Theorem _window_opened_cb_effects (w : Window) (m : HomeModel) :
  let m' := _window_opened_cb reg srv w m in
  _active_activity m' = _active_activity m /\
  (forall p, _pending_activity m = Some p -> _pending_activity m' = Some p) /\
  (exists l, _activities m' = _activities m ++ l /\ (length l <= 1)%nat) /\
  (exists t, trace m' = trace m ++ t /\
     forall e, e ∈ t ->
       exists arg members,
         e = Emitted activity_added arg members \/
         e = Emitted activity_started arg members \/
         e = Emitted pending_activity_changed arg members) /\
  (get_window_type w <> WINDOW_NORMAL -> m' = m).
Proof.
  intros m'. subst m'.
  split; [|split; [|split; [|split]]].
  5:{ intros Ht. by apply _window_opened_cb_other. }
  all: destruct (_window_opened_cb_summary reg srv w m)
         as [t A Ac P H T Ht | w0 a Hev Hf A Ac P H T
            | w0 r Hev Hr A Ac P H T | w0 Hev n A Ac P H T
            | aid s info Hev n A Ac P H T
            | ws r l1 l2 t Hev Hl Hn A Ac P H T Ca Cr];
         try discriminate Hev; try (by destruct Hev).
  - done.
  - intros p Hp. by rewrite P.
  - intros p Hp. by rewrite P, Hp.
  - intros p Hp. by rewrite P, Hp.
  - exists []. rewrite app_nil_r. split; [done | simpl; lia].
  - exists []. rewrite app_nil_r. split; [done | simpl; lia].
  - exists [n]. split; [done | simpl; lia].
  - exists t. split; [done|]. intros e He.
    destruct (decide (get_window_type w = WINDOW_NORMAL)) as [Hn|Hn].
    + exfalso. destruct Ht as [->|[l ->]]; [by apply elem_of_nil in He|].
      assert (Hc : count_signal activity_started
                     (trace (_window_opened_cb reg srv w m))
                   = count_signal activity_started (trace m))
        by (rewrite T; count_trace).
      assert (Hs : count_signal activity_started
                     (trace (_window_opened_cb reg srv w m))
                   = S (count_signal activity_started (trace m))); [|lia].
      destruct (truthy (wm_get_activity_id w)) eqn:Hid;
        [destruct (_get_activity_by_id m (wm_get_activity_id w)) as [r|] eqn:Hf|].
      * rewrite (_window_opened_cb_reuse reg srv w m r Hn Hid Hf). cbv zeta.
        destruct (_pending_activity m); rewrite ?_set_pending_activity_eq;
          unfold pending_effects; cbn [trace _pending_activity _activities];
          rewrite ?decide_False by done; count_trace.
      * rewrite (_window_opened_cb_new reg srv w m Hn (or_intror Hf)). cbv zeta.
        destruct (_pending_activity m); rewrite ?_set_pending_activity_eq;
          unfold pending_effects; cbn [trace _pending_activity _activities];
          rewrite ?decide_False by done; count_trace.
      * rewrite (_window_opened_cb_new reg srv w m Hn (or_introl Hid)). cbv zeta.
        destruct (_pending_activity m); rewrite ?_set_pending_activity_eq;
          unfold pending_effects; cbn [trace _pending_activity _activities];
          rewrite ?decide_False by done; count_trace.
    + exfalso. rewrite (_window_opened_cb_other reg srv w m Hn) in T.
      destruct Ht as [->|[l ->]]; [by apply elem_of_nil in He|].
      apply (f_equal length) in T. rewrite length_app in T. simpl in T. lia.
  - eexists. split; [exact T|]. intros e He.
    destruct (_pending_activity m);
      repeat (apply elem_of_cons in He as [->|He]; [eauto|]);
      by apply elem_of_nil in He.
  - eexists. split; [exact T|]. intros e He.
    destruct (_pending_activity m);
      repeat (apply elem_of_cons in He as [->|He]; [eauto 6|]);
      by apply elem_of_nil in He.
Qed.

(** X11. The active window changes.  When there is no active window, or no
    registered record has the identifier of the window looked up, the model
    is unchanged.  Otherwise the first registered record with that identifier
    becomes both pending and active, the registry and the heap are unchanged,
    and the effects come in this order: [pending-activity-changed] (if
    pending was another value), then, if active was another value, the
    remote SetActive(false) on the record that was active (if it has a
    service), the remote SetActive(true) on the new one (if it has a
    service), and [active-activity-changed]. *)
Theorem _active_window_changed_cb_selects (w : Window) (m : HomeModel) :
  _active_window_changed_cb None m = m /\
  ((forall r, r ∈ _activities m ->
      activity_get_xid m r <> Some (get_xid (focus_window w))) ->
   _active_window_changed_cb (Some w) m = m) /\
  (forall r, r ∈ _activities m ->
     activity_get_xid m r = Some (get_xid (focus_window w)) ->
     exists a,
       _get_activity_by_xid m (get_xid (focus_window w)) = Some a /\
       a ∈ _activities m /\
       activity_get_xid m a = Some (get_xid (focus_window w)) /\
       let m' := _active_window_changed_cb (Some w) m in
       _active_activity m' = Some a /\
       _pending_activity m' = Some a /\
       _activities m' = _activities m /\
       heap m' = heap m /\
       trace m' = trace m ++ pending_effects m (Some a)
                          ++ active_effects m (Some a)).
Proof.
  split; [done|]. split.
  - intros Hno.
    assert (E : _get_activity_by_xid m (get_xid (focus_window w)) = None).
    { apply find_none_iff. intros r Hr. apply bool_decide_eq_false. by apply Hno. }
    unfold _active_window_changed_cb. cbv zeta.
    change (if decide (get_window_type w <> WINDOW_DIALOG) then topmost w else w)
      with (focus_window w).
    by rewrite E.
  - intros r Hr Hx.
    destruct (_get_activity_by_xid_found m _ r Hr Hx) as [a Hf].
    destruct (_get_activity_by_xid_Some m _ a Hf) as [Ha Hxa].
    exists a. split; [done|]. split; [done|]. split; [done|].
    cbv zeta. rewrite (_active_window_changed_cb_eq w m a Hf). done.
Qed.

End WindowEvents.

(** ** Sequence-style access *)

Lemma list_index_Return (l : list ref) (x : option ref) (i : Z) :
  list_index l x = Return i ->
  exists k p, i = Z.of_nat k /\ x = Some p /\ l !! k = Some p /\
              forall j, (j < k)%nat -> l !! j <> Some p.
Proof.
  revert i. induction l as [|y l IH]; intros i H; [done|].
  simpl in H. destruct (decide (Some y = x)) as [E|E].
  - injection H as <-. exists 0%nat, y.
    split; [done|]. split; [done|]. split; [done|]. intros j Hj. lia.
  - destruct (list_index l x) as [i'|e] eqn:Hi; [|done].
    simpl in H. injection H as <-.
    destruct (IH i' eq_refl) as (k & p & -> & -> & Hk & Hfirst).
    exists (S k), p. split; [lia|]. split; [done|]. split; [done|].
    intros [|j] Hj; simpl; [congruence|]. apply Hfirst. lia.
Qed.

(** X12. [model[i]] returns a registered record exactly when
    [-len(model) <= i < len(model)], a negative index counting from the end,
    and fails with [IndexError] otherwise; with the indices in range,
    [model[i]] and [model[i - len(model)]] are the same record. *)
Theorem __getitem___bounds (m : HomeModel) (i : Z) :
  (- __len__ m <= i < __len__ m ->
   exists r, __getitem__ m i = Return r /\ r ∈ __iter__ m) /\
  (i < - __len__ m \/ __len__ m <= i -> __getitem__ m i = Raise IndexError) /\
  (0 <= i < __len__ m ->
   __getitem__ m (i - __len__ m) = __getitem__ m i).
Proof.
  unfold __getitem__, __len__, __iter__, getitem. cbv zeta.
  set (l := _activities m). split; [|split].
  - intros Hi.
    destruct (decide (i < 0)) as [Hneg|Hneg].
    + rewrite decide_False by lia.
      destruct (lookup_lt_is_Some_2 l (Z.to_nat (i + Z.of_nat (length l))))
        as [r Hr]; [lia|].
      rewrite Hr. exists r. split; [done|]. by eapply list_elem_of_lookup_2.
    + rewrite decide_False by lia.
      destruct (lookup_lt_is_Some_2 l (Z.to_nat i)) as [r Hr]; [lia|].
      rewrite Hr. exists r. split; [done|]. by eapply list_elem_of_lookup_2.
  - intros Hi.
    destruct (decide (i < 0)) as [Hneg|Hneg].
    + destruct (decide (i + Z.of_nat (length l) < 0)); [done|]. lia.
    + rewrite decide_False by lia.
      rewrite lookup_ge_None_2; [done|]. lia.
  - intros Hi.
    destruct (decide (i - Z.of_nat (length l) < 0)) as [_|?]; [|lia].
    rewrite (decide_False (P := i < 0)) by lia.
    replace (i - Z.of_nat (length l) + Z.of_nat (length l)) with i by lia.
    done.
Qed.

(** X13. [model.index(obj)] returns the position of the first occurrence:
    when it returns [i], [0 <= i < len(model)] and [model[i]] is [obj]; it
    fails with [ValueError] when [obj] is not registered (none never is).  As
    long as no record is registered twice, as in every reachable state,
    [model.index(model[i]) = i] for every position [i]. *)
Theorem index_getitem_round_trip (m : HomeModel) :
  (forall obj i, index m obj = Return i ->
     0 <= i < __len__ m /\
     exists r, obj = Some r /\ __getitem__ m i = Return r) /\
  (forall obj, (forall r, r ∈ __iter__ m -> Some r <> obj) ->
     index m obj = Raise ValueError) /\
  (NoDup (__iter__ m) ->
   forall i r, 0 <= i -> __getitem__ m i = Return r ->
     index m (Some r) = Return i).
Proof.
  unfold index, __getitem__, __len__, __iter__. split; [|split].
  - intros obj i Hi.
    destruct (list_index_Return _ _ _ Hi) as (k & p & -> & -> & Hk & _).
    split; [apply lookup_lt_Some in Hk; lia|].
    exists p. split; [done|]. by apply getitem_lookup.
  - intros obj Hno. by apply list_index_absent.
  - intros Hnd i r Hi Hget. unfold getitem in Hget. cbv zeta in Hget.
    rewrite (decide_False (P := i < 0)) in Hget by lia.
    rewrite (decide_False (P := i < 0)) in Hget by lia.
    destruct (_activities m !! Z.to_nat i) as [x|] eqn:Hx; [|done].
    injection Hget as ->.
    rewrite (list_index_first _ r (Z.to_nat i) Hx).
    + f_equal. lia.
    + intros j Hj Hjr.
      assert (j = Z.to_nat i) by (by eapply NoDup_lookup). lia.
Qed.

(** ** Sequences of events *)

Lemma find_snoc {A} (f : A -> bool) (l : list A) (y : A) :
  (forall x, x ∈ l -> f x = false) -> f y = true ->
  List.find f (l ++ [y]) = Some y.
Proof.
  intros Hl Hy. induction l as [|a l IH]; simpl; [by rewrite Hy|].
  rewrite (Hl a) by left. apply IH. intros x Hx. apply Hl. by right.
Qed.

Lemma list_remove_snoc (x : ref) (l : list ref) :
  x ∉ l -> list_remove x (l ++ [x]) = Return l.
Proof.
  induction l as [|y l IH]; intros Hx; simpl.
  - by rewrite decide_True.
  - apply not_elem_of_cons in Hx as [Hne Hx].
    rewrite decide_False by done. by rewrite IH.
Qed.

Section Sequences.

Variable reg : string -> option ActivityInfo.
Variable srv : option string -> option string.

(** X14. A launch notification immediately followed by the launch failure
    notification for the same activity id, in a reachable state where no
    registered record has that id, gives the registry and both selectors back
    as they were.  The record built in between stays on the heap, and the
    trace grows by [activity-added], the debug log record and
    [activity-removed], both signals being emitted while the record is
    registered. *)
Theorem launch_then_failed_restores G (m : HomeModel)
    (aid : option string) (s : string) (info : ActivityInfo)
    (windows_stacked : list Window) :
  reachable reg srv G m ->
  reg s = Some info ->
  (forall r, r ∈ _activities m -> get_activity_id m r <> aid) ->
  let m' := step reg srv (ActivityLaunchFailed windows_stacked aid)
              (step reg srv (ActivityLaunch aid s) m) in
  let n := length (heap m) in
  _activities m' = _activities m /\
  _active_activity m' = _active_activity m /\
  _pending_activity m' = _pending_activity m /\
  heap m' = heap m ++ [mkHomeActivity (Some info) aid None true (srv aid)] /\
  trace m' =
    trace m ++ [Emitted activity_added (Some n) (_activities m ++ [n]);
                Logged (debug_launch_failed aid);
                Emitted activity_removed (Some n) (_activities m ++ [n])].
Proof.
  intros Hm Hs Hfresh m' n.
  destruct (reachable_well_formed reg srv G m Hm) as [Hb Hnd].
  destruct (reachable_selectors_inv reg srv G m Hm) as [Hact Hpen].
  assert (Hn : n ∉ _activities m).
  { intros Hin. apply Hb in Hin. subst n. lia. }
  assert (Hna : Some n <> _active_activity m).
  { intros E. destruct (Hact n (eq_sym E)) as [Hin _]. done. }
  assert (Hnp : Some n <> _pending_activity m).
  { intros E. pose proof (get_window_lt m n (Hpen n (eq_sym E))). subst n. lia. }
  assert (E : m' =
    mkHomeModel (_activities m) (_active_activity m) (_pending_activity m)
      (heap m ++ [mkHomeActivity (Some info) aid None true (srv aid)])
      (trace m ++ [Emitted activity_added (Some n) (_activities m ++ [n]);
                   Logged (debug_launch_failed aid);
                   Emitted activity_removed (Some n) (_activities m ++ [n])])).
  { subst m'. unfold step, deliver.
    rewrite (notify_activity_launch_eq reg srv aid s info m Hs). fold n.
    set (m1 := mkHomeModel (_activities m ++ [n]) (_active_activity m)
                 (_pending_activity m)
                 (heap m ++ [mkHomeActivity (Some info) aid None true (srv aid)])
                 (trace m ++ [Emitted activity_added (Some n)
                                (_activities m ++ [n])])).
    assert (Hf : _get_activity_by_id m1 aid = Some n).
    { unfold _get_activity_by_id. subst m1. cbn [_activities]. apply find_snoc.
      - intros r Hr. apply bool_decide_eq_false.
        unfold get_activity_id. cbn [heap].
        rewrite lookup_app_l by (by apply Hb). by apply Hfresh.
      - apply bool_decide_eq_true.
        unfold get_activity_id. cbn [heap]. subst n.
        rewrite lookup_app_r by lia. by rewrite Nat.sub_diag. }
    unfold notify_activity_launch_failed. rewrite Hf.
    unfold _remove_activity. cbv zeta.
    rewrite (decide_False (P := Some n = _active_activity _)) by done.
    rewrite (decide_False (P := Some n = _pending_activity _)) by done.
    unfold emit, perform.
    cbn [_activities _active_activity _pending_activity heap trace].
    subst m1. cbn [_activities _active_activity _pending_activity heap trace].
    rewrite (list_remove_snoc n (_activities m) Hn).
    unfold with_activities.
    cbn [_activities _active_activity _pending_activity heap trace].
    by rewrite <- !app_assoc. }
  rewrite E. done.
Qed.

Lemma _window_opened_cb_attached w m :
  well_formed m ->
  get_window_type w = WINDOW_NORMAL ->
  exists ha,
    ha ∈ _activities (_window_opened_cb reg srv w m) /\
    get_window (_window_opened_cb reg srv w m) ha = Some w.
Proof.
  intros [Hb Hnd] Ht.
  assert (Hnew : truthy (wm_get_activity_id w) = false \/
                 _get_activity_by_id m (wm_get_activity_id w) = None ->
                 exists ha,
                   ha ∈ _activities (_window_opened_cb reg srv w m) /\
                   get_window (_window_opened_cb reg srv w m) ha = Some w).
  { intros Hn. rewrite (_window_opened_cb_new reg srv w m Ht Hn). cbv zeta.
    exists (length (heap m)).
    destruct (_pending_activity m); rewrite ?_set_pending_activity_eq;
      unfold get_window; cbn [_activities heap];
      (split; [apply elem_of_app; right; by left|]);
      rewrite lookup_app_r by lia; by rewrite Nat.sub_diag. }
  destruct (truthy (wm_get_activity_id w)) eqn:Hid; [|apply Hnew; by left].
  destruct (_get_activity_by_id m (wm_get_activity_id w)) as [r|] eqn:Hf;
    [|apply Hnew; by right].
  rewrite (_window_opened_cb_reuse reg srv w m r Ht Hid Hf). cbv zeta.
  destruct (_get_activity_by_id_Some m _ r Hf) as [Hr _].
  destruct (lookup_lt_is_Some_2 (heap m) r (Hb r Hr)) as [o Ho].
  exists r.
  destruct (_pending_activity m); rewrite ?_set_pending_activity_eq;
    unfold get_window; cbn [_activities heap];
    (split; [done|]); by rewrite list_lookup_alter_eq, Ho.
Qed.

(** X15. After a normal window has been opened in a well-formed model, a
    registered record carries its identifier: [_get_activity_by_xid] finds
    one, so closing the same window next, whatever the window stack, does not
    take the unknown-window branch: it ends normally and removes exactly one
    record. *)
Theorem opened_window_is_tracked (w : Window) (m : HomeModel) :
  well_formed m ->
  get_window_type w = WINDOW_NORMAL ->
  let m1 := _window_opened_cb reg srv w m in
  exists r,
    _get_activity_by_xid m1 (get_xid w) = Some r /\
    r ∈ _activities m1 /\
    activity_get_xid m1 r = Some (get_xid w) /\
    forall windows_stacked,
      exists m2,
        _window_closed_cb windows_stacked w m1 = Done m2 /\
        __len__ m2 = __len__ m1 - 1 /\
        heap m2 = heap m1.
Proof.
  intros [Hb Hnd] Ht m1.
  assert (Hha : exists ha, ha ∈ _activities m1 /\ get_window m1 ha = Some w).
  { subst m1. by apply _window_opened_cb_attached. }
  destruct Hha as (ha & Hin & Hw).
  assert (Hx : activity_get_xid m1 ha = Some (get_xid w)).
  { unfold activity_get_xid. by rewrite Hw. }
  destruct (_get_activity_by_xid_found m1 _ ha Hin Hx) as [r Hf].
  destruct (_get_activity_by_xid_Some m1 _ r Hf) as [Hr Hxr].
  exists r. split; [done|]. split; [done|]. split; [done|].
  intros ws. unfold _window_closed_cb, _remove_activity_by_xid.
  rewrite decide_True by done. rewrite Hf.
  destruct (_remove_activity_spec ws r m1 Hr)
    as (m2 & l1 & l2 & HD & _ & _ & Hl & _ & Hl' & _ & _ & Hh & _).
  exists m2. split; [done|]. split; [|done].
  unfold __len__. rewrite Hl, Hl', !length_app. simpl. lia.
Qed.

End Sequences.

(** ** Examples of the further properties *)

Lemma reachable_two_windows :
  reachable demo_registry demo_service any_event two_windows.
Proof.
  apply (reachable_any_run demo_registry demo_service
           [WindowOpened W1; WindowOpened W2] HomeModel_init).
  apply reachable_init.
Qed.

Lemma reachable_one_window :
  reachable demo_registry demo_service any_event one_window.
Proof.
  apply (reachable_any_run demo_registry demo_service
           [WindowOpened W1] HomeModel_init).
  apply reachable_init.
Qed.

Lemma reachable_registry_no_duplicates_witness : NoDup (__iter__ two_windows).
Proof.
  apply (reachable_registry_no_duplicates demo_registry demo_service any_event
           two_windows).
  apply reachable_two_windows.
Defined.

Lemma reachable_selectors_windowed_witness :
  is_Some (get_window two_windows 0%nat).
Proof.
  destruct (reachable_selectors_windowed demo_registry demo_service any_event
              two_windows reachable_two_windows) as [_ H].
  apply H. reflexivity.
Defined.

Lemma reachable_launching_consistent_witness :
  match heap two_windows !! 0%nat with
  | Some o => launching o = true <-> window o = None
  | None => True
  end.
Proof.
  destruct (heap two_windows !! 0%nat) as [o|] eqn:E; [|exact I].
  exact (reachable_launching_consistent demo_registry demo_service any_event
           two_windows reachable_two_windows 0%nat o E).
Defined.

Lemma reachable_signal_balance_witness :
  Z.of_nat (count_signal activity_added (trace two_windows))
  = __len__ two_windows
    + Z.of_nat (count_signal activity_removed (trace two_windows)).
Proof.
  apply (reachable_signal_balance demo_registry demo_service any_event
           two_windows).
  apply reachable_two_windows.
Defined.

Lemma deliver_raises_only_unknown_service_witness :
  exists aid s,
    ActivityLaunch (Some "a9"%string) "org.example.Missing" = ActivityLaunch aid s /\
    demo_registry s = None.
Proof.
  apply (deliver_raises_only_unknown_service demo_registry demo_service
           (ActivityLaunch (Some "a9"%string) "org.example.Missing")
           one_window one_window ValueError).
  reflexivity.
Defined.

Lemma _remove_activity_unregistered_witness :
  exists m',
    _remove_activity [W1] 5%nat one_window = Raised ValueError m' /\
    _activities m' = _activities one_window /\
    heap m' = heap one_window /\
    last (trace m')
    = Some (Emitted activity_removed (Some 5%nat) (_activities one_window)).
Proof.
  apply (_remove_activity_unregistered [W1] 5%nat one_window).
  change (5%nat ∉ [0%nat]). intros H. apply list_elem_of_singleton in H. lia.
Defined.


Lemma _window_opened_cb_creates_record_witness :
  _activities (_window_opened_cb demo_registry demo_service W2 one_window)
  = _activities one_window ++ [length (heap one_window)].
Proof.
  apply (_window_opened_cb_creates_record demo_registry demo_service W2 one_window).
  - reflexivity.
  - right. intros r Hr. change (r ∈ [0%nat]) in Hr.
    apply list_elem_of_singleton in Hr as ->. vm_compute. discriminate.
Defined.

Lemma _active_window_changed_cb_selects_witness :
  exists a,
    _get_activity_by_xid two_windows (get_xid (focus_window U1)) = Some a /\
    a ∈ _activities two_windows.
Proof.
  destruct (_active_window_changed_cb_selects U1 two_windows) as (_ & _ & H).
  destruct (H 0%nat) as (a & Hf & Ha & _).
  - change (0%nat ∈ [0%nat; 1%nat]). left.
  - reflexivity.
  - exists a. split; [exact Hf | exact Ha].
Defined.

Lemma __getitem___bounds_witness :
  exists r, __getitem__ two_windows (-1) = Return r /\ r ∈ __iter__ two_windows.
Proof.
  apply (__getitem___bounds two_windows (-1)).
  change (- 2 <= -1 < 2). lia.
Defined.

Lemma index_getitem_round_trip_witness :
  index two_windows (Some 1%nat) = Return 1.
Proof.
  apply (index_getitem_round_trip two_windows).
  - apply (reachable_well_formed demo_registry demo_service any_event two_windows).
    apply reachable_two_windows.
  - lia.
  - reflexivity.
Defined.

Lemma launch_then_failed_restores_witness :
  _activities
    (step demo_registry demo_service (ActivityLaunchFailed [W1] (Some "a9"%string))
       (step demo_registry demo_service
          (ActivityLaunch (Some "a9"%string) "org.laptop.WebActivity") one_window))
  = _activities one_window.
Proof.
  apply (launch_then_failed_restores demo_registry demo_service any_event
           one_window (Some "a9"%string) "org.laptop.WebActivity" web_info [W1]).
  - apply reachable_one_window.
  - reflexivity.
  - intros r Hr. change (r ∈ [0%nat]) in Hr.
    apply list_elem_of_singleton in Hr as ->. vm_compute. discriminate.
Defined.

Lemma opened_window_is_tracked_witness :
  exists r,
    _get_activity_by_xid
      (_window_opened_cb demo_registry demo_service W1 HomeModel_init)
      (get_xid W1) = Some r.
Proof.
  destruct (opened_window_is_tracked demo_registry demo_service W1 HomeModel_init)
    as (r & Hf & _).
  - apply well_formed_init.
  - reflexivity.
  - exists r. exact Hf.
Defined.
